(** * The shared ETL pipeline of orchestrators_tests, embedded in Rocq

    The development follows [shared/data_generators.py] (the Generator,
    [generate_sample_data]) and [shared/etl_operations.py] (the Transformer
    [transform_data], the Aggregator [create_summary] and the Loader
    [load_to_database]). The orchestrator wrappers only call these.

    - A pandas [DataFrame] is a list of rows; a float64 cell is a kernel
      binary64 float, an int64 cell an integer with its wrap-around written
      out where the code adds such cells.
    - Python exceptions are the [Raise] results of an error monad; the
      [random] module is a state threaded through the Generator; files and
      database tables are finite maps passed in and out.
    - What the Python code takes from its libraries (the random source,
      rounding, float reductions, date parsing, the file system's and the
      database's answers) enters through type classes and section variables;
      pandas' [to_sql] is written out from its documented [if_exists]
      behaviour and its chunked insert.

    The first part holds the model, the second its properties. *)

From Stdlib Require Import ZArith List String Ascii Lia Bool Floats DecimalString.
From Stdlib Require Import Permutation DecimalZ FinFun Sorted.
From stdpp Require Import gmap strings list fin_maps.
Import ListNotations.

#[local] Set Warnings "-inexact-float".
#[local] Open Scope Z_scope.

(** ** Python results and exceptions *)

Module Py.

(** Reasons for the [ValueError]s the pipeline can meet. *)
Inductive value_error : Type :=
  | EmptyRange (start stop : Z)     (* random.randrange: empty range *)
  | ArrayLengths                    (* DataFrame(dict): columns of unequal length *)
  | DateParse (s : string)          (* pandas.to_datetime: unparseable string *)
  | TableExists (name : string)     (* to_sql(if_exists="fail") on an existing table *)
  | ChunksizeZero.                  (* to_sql(chunksize=0) *)

Inductive exn : Type :=
  | ValueError (why : value_error)
  | IndexError                      (* indexing or choosing out of range *)
  | OSError                         (* a directory or file could not be made *)
  | DBAPIError.                     (* the database refused a statement *)

Inductive result (A : Type) : Type :=
  | Ok (a : A)
  | Raise (e : exn).
Arguments Ok {A} a.
Arguments Raise {A} e.

Definition bind {A B} (m : result A) (k : A -> result B) : result B :=
    match m with
    | Ok a => k a
    | Raise e => Raise e
    end.

Definition raises {A} (m : result A) : Prop := exists e, m = Raise e.

(** [seq[i]] on a list: negative indices count from the end. *)
Definition getitem {A} (l : list A) (i : Z) : result A :=
    let n := Z.of_nat (length l) in
    let j := if i <? 0 then i + n else i in
    if (0 <=? j) && (j <? n)
    then match nth_error l (Z.to_nat j) with
         | Some x => Ok x
         | None => Raise IndexError
         end
    else Raise IndexError.

(** [range(n)]: empty when [n <= 0]. *)
Definition range (n : Z) : list Z := map Z.of_nat (seq 0 (Z.to_nat n)).

(** [[x] * n]: empty when [n <= 0]. *)
Definition list_mul {A} (x : A) (n : Z) : list A := repeat x (Z.to_nat n).

(** Decimal text of an integer, as [str(i)] and [f"{i}"] print it. *)
Definition str_int (z : Z) : string := NilEmpty.string_of_int (Z.to_int z).

Definition zeros (k : nat) : string := string_of_list_ascii (repeat "0"%char k).

(** [f"{z:0wd}"]: sign-aware zero padding to width [w]. *)
Definition format_0d (w : nat) (z : Z) : string :=
    if z <? 0
    then let d := str_int (- z) in
         String "-" (zeros (Nat.pred w - String.length d) +:+ d)
    else let d := str_int z in
         zeros (w - String.length d) +:+ d.

End Py.
Import Py.

Notation "'let*' x ':=' m 'in' k" := (Py.bind m (fun x => k))
  (at level 10, x name, m at level 100, k at level 200).

(** ** The random module *)

(** A generator state with the two draws everything in [random] is built on.
    [_randbelow(n)] lies in [0, n) for positive [n]. *)
Class PyRandom (G : Type) : Type := {
  randbelow : Z -> G -> Z * G;
  random_unit : G -> float * G;
  randbelow_range : forall n g, 0 < n -> 0 <= fst (randbelow n g) < n
}.

Module Random.
Section WithGenerator.
Context {G : Type} `{PyRandom G}.

(** A computation that draws from the generator and may raise. *)
Definition Rand (A : Type) : Type := G -> result (A * G).

Definition ret {A} (a : A) : Rand A := fun g => Ok (a, g).

Definition bind {A B} (m : Rand A) (k : A -> Rand B) : Rand B :=
    fun g => match m g with
             | Ok (a, g') => k a g'
             | Raise e => Raise e
             end.

Definition raise {A} (e : exn) : Rand A := fun _ => Raise e.

Definition lift {A} (r : result A) : Rand A :=
    fun g => match r with Ok a => Ok (a, g) | Raise e => Raise e end.

(** [randrange(start, stop)] with step 1. *)
Definition randrange (start stop : Z) : Rand Z :=
    let width := stop - start in
    if 0 <? width
    then fun g => let '(r, g') := randbelow width g in Ok (start + r, g')
    else raise (ValueError (EmptyRange start stop)).

(** [randint(a, b)] is [randrange(a, b + 1)]. *)
Definition randint (a b : Z) : Rand Z := randrange a (b + 1).

(** [choice(seq)]. *)
Definition choice {A} (l : list A) : Rand A :=
    match l with
    | [] => raise IndexError
    | _ => fun g => let '(i, g') := randbelow (Z.of_nat (length l)) g in
                    match getitem l i with
                    | Ok x => Ok (x, g')
                    | Raise e => Raise e
                    end
    end.

(** [uniform(a, b)] is [a + (b - a) * random()]. *)
Definition uniform (a b : float) : Rand float :=
    fun g => let '(u, g') := random_unit g in Ok ((a + (b - a) * u)%float, g').

(** [[e for _ in range(n)]]: [n] successive draws, none when [n <= 0]. *)
Fixpoint replicate {A} (n : nat) (m : Rand A) : Rand (list A) :=
    match n with
    | O => ret []
    | S n' => bind m (fun x => bind (replicate n' m) (fun xs => ret (x :: xs)))
    end.

Definition comprehension {A} (n : Z) (m : Rand A) : Rand (list A) :=
    replicate (Z.to_nat n) m.

End WithGenerator.
Arguments Rand G A : clear implicits.
End Random.

(** ** Dates *)

Module Dates.

(** A pandas [Timestamp] (a [datetime]) down to the second. *)
Record Timestamp : Type := {
    ts_year : Z; ts_month : Z; ts_day : Z;
    ts_hour : Z; ts_minute : Z; ts_second : Z
  }.

(** Days since 1970-01-01 of a proleptic Gregorian date. *)
Definition days_from_civil (y m d : Z) : Z :=
    let y := if m <=? 2 then y - 1 else y in
    let era := y / 400 in
    let yoe := y - era * 400 in
    let doy := (153 * (if 2 <? m then m - 3 else m + 9) + 2) / 5 + d - 1 in
    let doe := yoe * 365 + yoe / 4 - yoe / 100 + doy in
    era * 146097 + doe - 719468.

Definition civil_from_days (z : Z) : Z * Z * Z :=
    let z := z + 719468 in
    let era := z / 146097 in
    let doe := z - era * 146097 in
    let yoe := (doe - doe / 1460 + doe / 36524 - doe / 146096) / 365 in
    let doy := doe - (365 * yoe + yoe / 4 - yoe / 100) in
    let mp := (5 * doy + 2) / 153 in
    let d := doy - (153 * mp + 2) / 5 + 1 in
    let m := if mp <? 10 then mp + 3 else mp - 9 in
    ((if m <=? 2 then yoe + era * 400 + 1 else yoe + era * 400), m, d).

(** [t + timedelta(days=k)]. *)
Definition add_days (t : Timestamp) (k : Z) : Timestamp :=
    let '(y, m, d) :=
      civil_from_days (days_from_civil (ts_year t) (ts_month t) (ts_day t) + k) in
    {| ts_year := y; ts_month := m; ts_day := d;
       ts_hour := ts_hour t; ts_minute := ts_minute t; ts_second := ts_second t |}.

(** [t.strftime("%Y-%m-%d %H:%M:%S")]. *)
Definition strftime (t : Timestamp) : string :=
    format_0d 4 (ts_year t) +:+ "-" +:+ format_0d 2 (ts_month t) +:+ "-" +:+
    format_0d 2 (ts_day t) +:+ " " +:+ format_0d 2 (ts_hour t) +:+ ":" +:+
    format_0d 2 (ts_minute t) +:+ ":" +:+ format_0d 2 (ts_second t).

(** [.dt.dayofweek]: Monday is 0; 1970-01-01 was a Thursday. *)
Definition dayofweek (t : Timestamp) : Z :=
    (days_from_civil (ts_year t) (ts_month t) (ts_day t) + 3) mod 7.

(** [.dt.day_name()]. *)
Definition day_name (t : Timestamp) : string :=
    nth (Z.to_nat (dayofweek t))
        ["Monday"; "Tuesday"; "Wednesday"; "Thursday"; "Friday"; "Saturday"; "Sunday"]
        "".

(** A cell of the [transaction_date] column: the text the file holds, or the
      timestamp [to_datetime] made of it. *)
Inductive date_cell : Type :=
  | DateStr (s : string)
  | DateTs (t : Timestamp).

End Dates.
Import Dates.


(** ** Numbers *)

(** What the code takes from Python and numpy on float64 values. *)
Class Numeric : Type := {
  (** the builtin [round(x, ndigits)] *)
  round_ndigits : Z -> float -> float;
  (** [Series.round(decimals)] on one float64 cell *)
  np_round : Z -> float -> float;
  (** the sum and the mean of float64 values, as a groupby reduces them *)
  float_sum : list float -> float;
  float_mean : list float -> float
}.

Module Int64.

Definition min_int : Z := - 2 ^ 63.


(** Two's-complement wrap-around of an int64 result. *)
Definition wrap (z : Z) : Z := (z + 2 ^ 63) mod 2 ^ 64 - 2 ^ 63.

(** The sum of an int64 column. *)
Definition sum (l : list Z) : Z := wrap (fold_right Z.add 0 l).

(** An int64 cell as a float64, as numpy converts it in mixed arithmetic. *)
Definition to_float (z : Z) : float :=
  if z =? min_int then (- 9223372036854775808)%float
  else if z <? 0 then (- of_uint63 (Uint63.of_Z (- z)))%float
  else of_uint63 (Uint63.of_Z z).

End Int64.

(** ** Data frames *)

Module Frame.

(** The labels of [customer_segment]. *)
Inductive segment : Type := low_value | medium_value | high_value.

(** The columns [transform_data] adds. [customer_segment] is [None] where
    [cut] finds no bin (a missing category). *)
Record Derived : Type := {
  year : Z;
  month : Z;
  day_of_week : string;
  is_weekend : bool;
  customer_segment : option segment;
  estimated_profit : float
}.

(** One row of the transactions frame. The key columns that [dropna] inspects
    may be missing ([None], and NaN for the float [total_amount]); [derived] is
    [None] in a frame that has not been transformed. *)
Record Row : Type := {
  transaction_id : option string;
  customer_id : option string;
  product_name : string;
  category : option string;
  quantity : Z;
  unit_price : float;
  total_amount : float;
  discount_percent : Z;
  tax_rate : float;
  payment_method : string;
  status : string;
  transaction_date : date_cell;
  shipping_country : string;
  customer_email : string;
  derived : option Derived
}.

Definition DataFrame : Type := list Row.

Definition set_total_amount (v : float) (r : Row) : Row :=
  {| transaction_id := transaction_id r; customer_id := customer_id r;
     product_name := product_name r; category := category r;
     quantity := quantity r; unit_price := unit_price r;
     total_amount := v;
     discount_percent := discount_percent r; tax_rate := tax_rate r;
     payment_method := payment_method r; status := status r;
     transaction_date := transaction_date r;
     shipping_country := shipping_country r; customer_email := customer_email r;
     derived := derived r |}.

Definition set_transaction_date (d : date_cell) (r : Row) : Row :=
  {| transaction_id := transaction_id r; customer_id := customer_id r;
     product_name := product_name r; category := category r;
     quantity := quantity r; unit_price := unit_price r;
     total_amount := total_amount r;
     discount_percent := discount_percent r; tax_rate := tax_rate r;
     payment_method := payment_method r; status := status r;
     transaction_date := d;
     shipping_country := shipping_country r; customer_email := customer_email r;
     derived := derived r |}.

Definition set_derived (e : Derived) (r : Row) : Row :=
  {| transaction_id := transaction_id r; customer_id := customer_id r;
     product_name := product_name r; category := category r;
     quantity := quantity r; unit_price := unit_price r;
     total_amount := total_amount r;
     discount_percent := discount_percent r; tax_rate := tax_rate r;
     payment_method := payment_method r; status := status r;
     transaction_date := transaction_date r;
     shipping_country := shipping_country r; customer_email := customer_email r;
     derived := Some e |}.

(** The dict of columns that [generate_sample_data] builds. *)
Record Columns : Type := {
  c_transaction_id : list string;
  c_customer_id : list string;
  c_product_name : list string;
  c_category : list string;
  c_quantity : list Z;
  c_unit_price : list float;
  c_total_amount : list float;
  c_discount_percent : list Z;
  c_tax_rate : list float;
  c_payment_method : list string;
  c_status : list string;
  c_transaction_date : list string;
  c_shipping_country : list string;
  c_customer_email : list string
}.

Definition column_lengths (d : Columns) : list nat :=
  [ length (c_transaction_id d); length (c_customer_id d);
    length (c_product_name d); length (c_category d); length (c_quantity d);
    length (c_unit_price d); length (c_total_amount d);
    length (c_discount_percent d); length (c_tax_rate d);
    length (c_payment_method d); length (c_status d);
    length (c_transaction_date d); length (c_shipping_country d);
    length (c_customer_email d) ].

Definition row_at (d : Columns) (i : nat) : Row :=
  {| transaction_id := Some (nth i (c_transaction_id d) "");
     customer_id := Some (nth i (c_customer_id d) "");
     product_name := nth i (c_product_name d) "";
     category := Some (nth i (c_category d) "");
     quantity := nth i (c_quantity d) 0;
     unit_price := nth i (c_unit_price d) 0%float;
     total_amount := nth i (c_total_amount d) 0%float;
     discount_percent := nth i (c_discount_percent d) 0;
     tax_rate := nth i (c_tax_rate d) 0%float;
     payment_method := nth i (c_payment_method d) "";
     status := nth i (c_status d) "";
     transaction_date := DateStr (nth i (c_transaction_date d) "");
     shipping_country := nth i (c_shipping_country d) "";
     customer_email := nth i (c_customer_email d) "";
     derived := None |}.

(** [pd.DataFrame(data)]: the columns must have one length. *)
Definition of_columns (d : Columns) : result DataFrame :=
  let n := length (c_transaction_id d) in
  if forallb (Nat.eqb n) (column_lengths d)
  then Ok (map (row_at d) (seq 0 n))
  else Raise (ValueError ArrayLengths).

End Frame.
Import Frame.

(** ** The Generator: [shared/data_generators.py] *)

(** What the operating system answers when the Generator saves its frame:
    whether the parent directories of a path can be made, and whether the
    file at the path can be written. *)
Class FileSystem : Type := {
  mkdir_parents : string -> bool;
  can_write : string -> bool
}.

Module Generator.

(** The [output_format] argument; any other string writes nothing. *)
Inductive file_format : Type := csv | json | parquet | other_format (s : string).

Definition categories : list string :=
  ["Electronics"; "Clothing"; "Books"; "Home & Garden"; "Sports"; "Toys"]%string.
Definition statuses : list string :=
  ["completed"; "pending"; "cancelled"; "refunded"]%string.
Definition payment_methods : list string :=
  ["credit_card"; "debit_card"; "paypal"; "crypto"]%string.
Definition shipping_countries : list string :=
  ["USA"; "Canada"; "UK"; "Germany"; "France"; "Australia"]%string.
Definition discounts : list Z := [0; 5; 10; 15; 20].

Definition start_date : Timestamp :=
  {| ts_year := 2023; ts_month := 1; ts_day := 1;
     ts_hour := 0; ts_minute := 0; ts_second := 0 |}.

(** The right-hand side of the [total_amount] assignment, before rounding:
    [quantity * unit_price * (1 - discount_percent / 100) * (1 + tax_rate)]. *)
Definition amount_formula (r : Row) : float :=
  (Int64.to_float (quantity r) * unit_price r
   * (1 - Int64.to_float (discount_percent r) / 100)
   * (1 + tax_rate r))%float.

Section WithLibraries.
Context {G : Type} `{PyRandom G} `{Numeric} `{FileSystem}.

Notation "'let!' x ':=' m 'in' k" := (Random.bind m (fun x => k))
  (at level 10, x name, m at level 100, k at level 200).

(** The dict literal [data]: its entries are evaluated in order, each list
    comprehension drawing [num_rows] times before the next one starts. *)
Definition build_columns (num_rows : Z) : Random.Rand G Columns :=
  let transaction_id :=
    map (fun i => "TXN" +:+ format_0d 8 i) (range num_rows) in
  let! customer_id :=
    Random.comprehension num_rows
      (let! k := Random.randint 1 (num_rows / 10) in
       Random.ret ("CUST" +:+ format_0d 6 k)) in
  let! product_name :=
    Random.comprehension num_rows
      (let! k := Random.randint 1 1000 in
       Random.ret ("Product_" +:+ str_int k)) in
  let! category := Random.comprehension num_rows (Random.choice categories) in
  let! quantity := Random.comprehension num_rows (Random.randint 1 10) in
  let! unit_price :=
    Random.comprehension num_rows
      (let! u := Random.uniform 5 500 in Random.ret (round_ndigits 2 u)) in
  let total_amount := list_mul 0%float num_rows in
  let! discount_percent :=
    Random.comprehension num_rows (Random.choice discounts) in
  let tax_rate := list_mul 0.08%float num_rows in
  let! payment_method :=
    Random.comprehension num_rows (Random.choice payment_methods) in
  let! status := Random.comprehension num_rows (Random.choice statuses) in
  let! transaction_date :=
    Random.comprehension num_rows
      (let! k := Random.randint 0 700 in
       Random.ret (strftime (add_days start_date k))) in
  let! shipping_country :=
    Random.comprehension num_rows (Random.choice shipping_countries) in
  let! customer_email :=
    Random.comprehension num_rows
      (let! k := Random.randint 1 (num_rows / 10) in
       Random.ret ("customer" +:+ str_int k +:+ "@example.com")) in
  Random.ret
    {| c_transaction_id := transaction_id; c_customer_id := customer_id;
       c_product_name := product_name; c_category := category;
       c_quantity := quantity; c_unit_price := unit_price;
       c_total_amount := total_amount; c_discount_percent := discount_percent;
       c_tax_rate := tax_rate; c_payment_method := payment_method;
       c_status := status; c_transaction_date := transaction_date;
       c_shipping_country := shipping_country;
       c_customer_email := customer_email |}.

(** [df["total_amount"] = (...).round(2)]. *)
Definition assign_total_amount (df : DataFrame) : DataFrame :=
  map (fun r => set_total_amount (np_round 2 (amount_formula r)) r) df.

(** The frame [generate_sample_data] returns (lines 28 to 66). *)
Definition generate_frame (num_rows : Z) : Random.Rand G DataFrame :=
  let! data := build_columns num_rows in
  let! df := Random.lift (of_columns data) in
  Random.ret (assign_total_amount df).

(** [generate_sample_data(num_rows, output_format, output_path)]. The files
    written so far are a map from paths to the format and frame written
    there. With a path (not the empty string, which [if output_path] takes
    for no path) the parent directories are made, and with one of the three
    formats the file is (over)written; either step can raise [OSError]. *)
Definition generate_sample_data
    (num_rows : Z) (output_format : file_format) (output_path : option string)
    (files : gmap string (file_format * DataFrame)) (g : G)
  : result (DataFrame * gmap string (file_format * DataFrame) * G) :=
  match generate_frame num_rows g with
  | Raise e => Raise e
  | Ok (df, g') =>
      match output_path with
      | Some path =>
          if String.eqb path "" then Ok (df, files, g')
          else if negb (mkdir_parents path) then Raise OSError
          else match output_format with
               | other_format _ => Ok (df, files, g')
               | fmt =>
                   if can_write path
                   then Ok (df, <[path := (fmt, df)]> files, g')
                   else Raise OSError
               end
      | None => Ok (df, files, g')
      end
  end.

End WithLibraries.
End Generator.

(** ** Transformer and Aggregator: [shared/etl_operations.py] *)

(** [pd.to_datetime] on one string: the timestamp, or nothing when the string
    does not parse. *)
Class DateParser : Type := { parse_datetime : string -> option Timestamp }.

Module Etl.

(** [df.drop_duplicates(subset=["transaction_id"])]: the first row of each key
    stays; missing keys count as one key. *)
Fixpoint drop_duplicates_from (seen : list (option string)) (df : DataFrame)
  : DataFrame :=
  match df with
  | [] => []
  | r :: rest =>
      if bool_decide (transaction_id r ∈ seen)
      then drop_duplicates_from seen rest
      else r :: drop_duplicates_from (transaction_id r :: seen) rest
  end.

Definition drop_duplicates (df : DataFrame) : DataFrame :=
  drop_duplicates_from [] df.

Definition is_some {A} (o : option A) : bool :=
  match o with Some _ => true | None => false end.

(** [df.dropna(subset=["transaction_id", "customer_id", "total_amount"])]. *)
Definition notna (r : Row) : bool :=
  is_some (transaction_id r) && is_some (customer_id r)
  && negb (is_nan (total_amount r)).

Definition dropna (df : DataFrame) : DataFrame := List.filter notna df.

(** [df[df["total_amount"] > 0]] and [df[df["quantity"] > 0]]. *)
Definition positive_amount (r : Row) : bool := (0 <? total_amount r)%float.
Definition positive_quantity (r : Row) : bool := 0 <? quantity r.

(** The bin edges and labels handed to [pd.cut]. *)
Definition bins : list float := [0%float; 50%float; 200%float; infinity].
Definition labels : list segment := [low_value; medium_value; high_value].

(** [bins.searchsorted(x, side="left")] on sorted edges: how many edges lie
    strictly below [x]. *)
Fixpoint searchsorted_left (edges : list float) (x : float) : nat :=
  match edges with
  | [] => O
  | b :: rest => if (b <? x)%float then S (searchsorted_left rest x) else O
  end.

(** [pd.cut(x, bins, labels)] with its defaults [right=True] and
    [include_lowest=False]: a value at or below the first edge, above the
    last, or missing, gets no label. *)
Definition cut (edges : list float) (names : list segment) (x : float)
  : option segment :=
  let ids := searchsorted_left edges x in
  if is_nan x || Nat.eqb ids (length edges) || Nat.eqb ids 0
  then None
  else nth_error names (Nat.pred ids).

(** One row of the summary frame. *)
Record SummaryRow : Type := {
  s_category : string;
  total_transactions : Z;
  total_revenue : float;
  avg_order_value : float;
  total_quantity : Z
}.

Section WithLibraries.
Context `{Numeric} `{DateParser}.

(** [pd.to_datetime] on one cell: a timestamp stays as it is. *)
Definition to_datetime_cell (c : date_cell) : result Timestamp :=
  match c with
  | DateTs t => Ok t
  | DateStr s =>
      match parse_datetime s with
      | Some t => Ok t
      | None => Raise (ValueError (DateParse s))
      end
  end.

(** [pd.to_datetime(df["transaction_date"])]: one unparseable cell fails the
    whole call. Each row comes back with its timestamp. *)
Fixpoint to_datetime (df : DataFrame) : result (list (Timestamp * Row)) :=
  match df with
  | [] => Ok []
  | r :: rest =>
      let* t := to_datetime_cell (transaction_date r) in
      let* rest' := to_datetime rest in
      Ok ((t, r) :: rest')
  end.

(** Lines 76 to 93 on one row: the parsed date and the derived columns. *)
Definition enrich (p : Timestamp * Row) : Row :=
  let '(t, r) := p in
  set_derived
    {| year := ts_year t;
       month := ts_month t;
       day_of_week := day_name t;
       is_weekend := 5 <=? dayofweek t;
       customer_segment := cut bins labels (total_amount r);
       estimated_profit := np_round 2 (total_amount r * 0.3)%float |}
    (set_transaction_date (DateTs t) r).

(** The cleaning steps, lines 62 to 73. *)
Definition clean (df : DataFrame) : DataFrame :=
  let df := drop_duplicates df in
  let df := dropna df in
  let df := List.filter positive_amount df in
  List.filter positive_quantity df.

Definition transform_data (df : DataFrame) : result DataFrame :=
  let df := clean df in
  let* parsed := to_datetime df in
  Ok (map enrich parsed).

(** Group keys of [df.groupby("category")]: the distinct categories present,
    missing ones left out, in sorted order. *)
Fixpoint insert_key (k : string) (l : list string) : list string :=
  match l with
  | [] => [k]
  | h :: t => if String.leb k h then k :: h :: t else h :: insert_key k t
  end.

Definition sort_keys (l : list string) : list string :=
  fold_right insert_key [] l.

Fixpoint present_categories (seen : list string) (df : DataFrame)
  : list string :=
  match df with
  | [] => []
  | r :: rest =>
      match category r with
      | None => present_categories seen rest
      | Some c =>
          if bool_decide (c ∈ seen) then present_categories seen rest
          else c :: present_categories (c :: seen) rest
      end
  end.

Definition group_keys (df : DataFrame) : list string :=
  sort_keys (present_categories [] df).

(** The rows of one group. *)
Definition group (df : DataFrame) (c : string) : DataFrame :=
  List.filter (fun r => bool_decide (category r = Some c)) df.

(** The reductions of [.agg(...)]: ["count"] counts the cells that are not
    missing; ["sum"] and ["mean"] skip missing values. *)
Definition agg_count (grp : DataFrame) : Z :=
  Z.of_nat (length (List.filter (fun r => is_some (transaction_id r)) grp)).

Definition present_amounts (grp : DataFrame) : list float :=
  List.filter (fun x => negb (is_nan x)) (map total_amount grp).

(** [df.groupby("category").agg(...)] for one group: the aggregates as the
    reductions return them. *)
Definition aggregate (df : DataFrame) (c : string) : SummaryRow :=
  let grp := group df c in
  {| s_category := c;
     total_transactions := agg_count grp;
     total_revenue := float_sum (present_amounts grp);
     avg_order_value := float_mean (present_amounts grp);
     total_quantity := Int64.sum (map quantity grp) |}.

(** [summary["total_revenue"].round(2)] and [summary["avg_order_value"].round(2)]. *)
Definition round_summary (s : SummaryRow) : SummaryRow :=
  {| s_category := s_category s;
     total_transactions := total_transactions s;
     total_revenue := np_round 2 (total_revenue s);
     avg_order_value := np_round 2 (avg_order_value s);
     total_quantity := total_quantity s |}.

Definition create_summary (df : DataFrame) : list SummaryRow :=
  let summary := map (aggregate df) (group_keys df) in
  map round_summary summary.

End WithLibraries.
End Etl.

(** ** The Loader: [load_to_database] and pandas' [to_sql] *)

Module Loader.

(** The [if_exists] argument. *)
Inductive if_exists_policy : Type := fail | replace | append.

(** How much of a failed [to_sql] call the database undoes: the whole call
    (drop, create and inserts in one transaction), the inserts only, or
    nothing that was already written (every batch committed on its own). *)
Inductive tx_scope : Type := WholeCall | InsertOnly | PerChunk.

Section WithDatabase.
Context {R : Type}.

(** The database server: whether the one at a URL can be reached, whether it
    accepts a batch for a table holding the given rows, and what it undoes. *)
Variable reachable : string -> bool.
Variable accepts : string -> list R -> list R -> bool.
Variable scope : tx_scope.

(** A database maps the names of its tables to their rows. *)
Abbreviation database := (gmap string (list R)).

(** [SQLTable.create]: what [if_exists] does before any row is written. *)
Definition create_table (name : string) (if_exists : if_exists_policy)
    (db : database) : result database :=
  match db !! name with
  | Some _ =>
      match if_exists with
      | fail => Raise (ValueError (TableExists name))
      | replace => Ok (<[name := []]> db)
      | append => Ok db
      end
  | None => Ok (<[name := []]> db)
  end.

(** [frame[start:stop]] for [0 <= start <= stop]. *)
Definition slice (frame : list R) (start stop : Z) : list R :=
  firstn (Z.to_nat (stop - start)) (skipn (Z.to_nat start) frame).

(** The loop of [SQLTable.insert] over [range(chunks)]: the table's rows
    after the last batch the database took, and whether one was refused. *)
Fixpoint insert_chunks (name : string) (frame : list R) (chunksize : Z)
    (chunk_ids : list Z) (table : list R) : result unit * list R :=
  match chunk_ids with
  | [] => (Ok tt, table)
  | i :: rest =>
      let nrows := Z.of_nat (length frame) in
      let start_i := i * chunksize in
      let end_i := Z.min ((i + 1) * chunksize) nrows in
      if end_i <=? start_i then (Ok tt, table)
      else
        let chunk := slice frame start_i end_i in
        if accepts name table chunk
        then insert_chunks name frame chunksize rest (table ++ chunk)
        else (Raise DBAPIError, table)
  end.

(** [SQLTable.insert(chunksize)]. *)
Definition insert (name : string) (frame : list R) (chunksize : Z)
    (table : list R) : result unit * list R :=
  let nrows := Z.of_nat (length frame) in
  if nrows =? 0 then (Ok tt, table)
  else if chunksize =? 0 then (Raise (ValueError ChunksizeZero), table)
  else
    let chunks := nrows / chunksize + 1 in
    insert_chunks name frame chunksize (range chunks) table.

(** [frame.to_sql(name, engine, if_exists=..., chunksize=...)]: the outcome
    and the database it leaves. *)
Definition to_sql (frame : list R) (name : string)
    (if_exists : if_exists_policy) (chunksize : Z) (db : database)
  : result unit * database :=
  match create_table name if_exists db with
  | Raise e => (Raise e, db)
  | Ok db1 =>
      match insert name frame chunksize (default [] (db1 !! name)) with
      | (Ok _, table) => (Ok tt, <[name := table]> db1)
      | (Raise e, table) =>
          (Raise e,
           match scope with
           | WholeCall => db
           | InsertOnly => db1
           | PerChunk => <[name := table]> db1
           end)
      end
  end.

Definition load_to_database (df : list R) (table_name database_url : string)
    (if_exists : if_exists_policy) (batch_size : Z) (db : database)
  : result unit * database :=
  if reachable database_url
  then to_sql df table_name if_exists batch_size db
  else (Raise DBAPIError, db).

End WithDatabase.
End Loader.

(** ** The test datasets: [create_test_datasets] *)

Module Datasets.
Import Generator.

(** [base_path / name] for a base path as pathlib prints it (["."] for the
    current directory, no trailing slash but for the root) and a plain file
    name. *)
Definition path_join (base name : string) : string :=
  if String.eqb base "." then name
  else if String.eqb base "/" then "/" +:+ name
  else base +:+ "/" +:+ name.

(** The dict [datasets], in its insertion order. *)
Definition datasets : list (string * Z) :=
  [("small", 10000); ("medium", 1000000); ("large", 10000000)]%string.

Section WithLibraries.
Context {G : Type} `{PyRandom G} `{Numeric} `{FileSystem}.

(** The body of the loop: the CSV, the JSON and the Parquet file of one
    size, each from a generation of its own. *)
Definition generate_size (base_path : string) (entry : string * Z)
    (files : gmap string (file_format * DataFrame)) (g : G)
  : result (gmap string (file_format * DataFrame) * G) :=
  let '(size_name, num_rows) := entry in
  let csv_path := path_join base_path ("transactions_" +:+ size_name +:+ ".csv") in
  match generate_sample_data num_rows csv (Some csv_path) files g with
  | Raise e => Raise e
  | Ok (_, files1, g1) =>
      let json_path :=
        path_join base_path ("transactions_" +:+ size_name +:+ ".json") in
      match generate_sample_data num_rows json (Some json_path) files1 g1 with
      | Raise e => Raise e
      | Ok (_, files2, g2) =>
          let parquet_path :=
            path_join base_path ("transactions_" +:+ size_name +:+ ".parquet") in
          match generate_sample_data num_rows parquet (Some parquet_path)
                  files2 g2 with
          | Raise e => Raise e
          | Ok (_, files3, g3) => Ok (files3, g3)
          end
      end
  end.

(** [for size_name, num_rows in datasets.items(): ...]. *)
Fixpoint for_each_size (base_path : string) (entries : list (string * Z))
    (files : gmap string (file_format * DataFrame)) (g : G)
  : result (gmap string (file_format * DataFrame) * G) :=
  match entries with
  | [] => Ok (files, g)
  | entry :: rest =>
      match generate_size base_path entry files g with
      | Raise e => Raise e
      | Ok (files', g') => for_each_size base_path rest files' g'
      end
  end.

Definition create_test_datasets (base_path : string)
    (files : gmap string (file_format * DataFrame)) (g : G)
  : result (gmap string (file_format * DataFrame) * G) :=
  for_each_size base_path datasets files g.

End WithLibraries.
End Datasets.

(** ** The Extractor and the whole pipeline: [extract_data], [run_etl_pipeline] *)

(** [pd.read_csv], [pd.read_json(lines=True)] and [pd.read_parquet] on a
    file: the frame read in the asked format from what was written, or
    nothing when the reader raises. *)
Class FrameReader : Type := {
  read_frame : Generator.file_format -> Generator.file_format * DataFrame
               -> option DataFrame
}.

(** [Series.sum()] on float64 values. *)
Class SeriesOps : Type := { series_sum : list float -> float }.

Module Pipeline.
Import Generator Etl Loader.

(** What a stage of the pipeline can raise: the Extractor's own errors, the
    reader's, and the exceptions of the stages after it. *)
Inductive error : Type :=
  | FileNotFoundError (path : string)
  | UnsupportedFormat (fmt : string)
  | ReaderError
  | Python (e : exn).

Inductive outcome (A : Type) : Type :=
  | Returned (a : A)
  | Failed (e : error).
Arguments Returned {A} a.
Arguments Failed {A} e.

(** A row of a table of the database: of [transactions] or of
    [transaction_summary]. *)
Inductive table_row : Type :=
  | TransactionRow (r : Row)
  | SummaryRecord (s : SummaryRow).

(** The dict [run_etl_pipeline] returns. *)
Record Metrics : Type := {
  rows_processed : Z;
  categories : Z;
  total_revenue : float
}.

Section WithLibraries.
Context `{Numeric} `{DateParser} `{FrameReader} `{SeriesOps}.
Variable reachable : string -> bool.
Variable accepts : string -> list table_row -> list table_row -> bool.
Variable scope : tx_scope.

(** [extract_data(file_path, file_format)]: the existence of the file is
    checked before the format is looked at. *)
Definition extract_data (file_path : string) (file_format : Generator.file_format)
    (files : gmap string (Generator.file_format * DataFrame)) : outcome DataFrame :=
  match files !! file_path with
  | None => Failed (FileNotFoundError file_path)
  | Some content =>
      match file_format with
      | other_format s => Failed (UnsupportedFormat s)
      | fmt =>
          match read_frame fmt content with
          | Some df => Returned df
          | None => Failed ReaderError
          end
      end
  end.

(** [float(df_summary["total_revenue"].sum())]: missing values are skipped. *)
Definition revenue_total (summary : list SummaryRow) : float :=
  series_sum
    (List.filter (fun x => negb (is_nan x)) (map Etl.total_revenue summary)).

(** [run_etl_pipeline(input_file, database_url, file_format)]: both loads
    replace their table, in batches of the default 10000 rows. *)
Definition run_etl_pipeline (input_file database_url : string)
    (file_format : Generator.file_format)
    (files : gmap string (Generator.file_format * DataFrame))
    (db : gmap string (list table_row))
  : outcome Metrics * gmap string (list table_row) :=
  match extract_data input_file file_format files with
  | Failed e => (Failed e, db)
  | Returned df =>
      match transform_data df with
      | Raise e => (Failed (Python e), db)
      | Ok df_transformed =>
          match load_to_database reachable accepts scope
                  (map TransactionRow df_transformed) "transactions"
                  database_url replace 10000 db with
          | (Raise e, db1) => (Failed (Python e), db1)
          | (Ok _, db1) =>
              let df_summary := create_summary df_transformed in
              match load_to_database reachable accepts scope
                      (map SummaryRecord df_summary) "transaction_summary"
                      database_url replace 10000 db1 with
              | (Raise e, db2) => (Failed (Python e), db2)
              | (Ok _, db2) =>
                  (Returned
                     {| rows_processed := Z.of_nat (length df_transformed);
                        categories := Z.of_nat (length df_summary);
                        total_revenue := revenue_total df_summary |},
                   db2)
              end
          end
      end
  end.

End WithLibraries.
End Pipeline.

(** ** The schema: [shared/database_utils.py] *)

Module Tables.

(** [get_database_url(host, port, database, user, password)]. *)
Definition get_database_url (host : string) (port : Z)
    (database user password : string) : string :=
  "postgresql://" +:+ user +:+ ":" +:+ password +:+ "@" +:+ host +:+ ":"
  +:+ str_int port +:+ "/" +:+ database.

(** The call with every default. *)
Definition default_database_url : string :=
  get_database_url "localhost" 5432 "orchestrator_test" "postgres" "postgres".

(** The tables declared on [Base]. *)
Definition table_names : list string :=
  ["transactions"; "transaction_summary"]%string.

Section WithDatabase.
Context {R : Type}.
Variable reachable : string -> bool.

(** [Base.metadata.create_all(engine)]: a table that is already there is
    left alone. *)
Definition create_all (db : gmap string (list R)) : gmap string (list R) :=
  fold_left
    (fun d name => match d !! name with
                   | Some _ => d
                   | None => <[name := []]> d
                   end)
    table_names db.

(** [Base.metadata.drop_all(engine)]. *)
Definition drop_all (db : gmap string (list R)) : gmap string (list R) :=
  fold_left (fun d name => delete name d) table_names db.

Definition create_tables (database_url : string) (db : gmap string (list R))
  : result unit * gmap string (list R) :=
  if reachable database_url then (Ok tt, create_all db)
  else (Raise DBAPIError, db).

Definition drop_tables (database_url : string) (db : gmap string (list R))
  : result unit * gmap string (list R) :=
  if reachable database_url then (Ok tt, drop_all db)
  else (Raise DBAPIError, db).

End WithDatabase.
End Tables.

(** ** Setting up: [setup_test_env.py] *)

Module Setup.
Import Generator.

Section WithLibraries.
Context {G : Type} `{PyRandom G} `{Numeric} `{FileSystem}.
Context {R : Type}.
Variable reachable : string -> bool.

(** [setup_environment()]: what it returns, the database it leaves, and the
    files and generator it leaves. Both steps sit in a [try]; an exception
    makes it return [False]. When writing the datasets raised, the files are
    not followed any further ([None]). *)
Definition setup_environment
    (files : gmap string (file_format * DataFrame)) (g : G)
    (db : gmap string (list R))
  : bool * gmap string (list R)
    * option (gmap string (file_format * DataFrame) * G) :=
  match Tables.create_tables reachable Tables.default_database_url db with
  | (Raise _, db') => (false, db', Some (files, g))
  | (Ok _, db') =>
      match Datasets.create_test_datasets "data/raw" files g with
      | Raise _ => (false, db', None)
      | Ok (files', g') => (true, db', Some (files', g'))
      end
  end.

End WithLibraries.
End Setup.

(** ** Concrete libraries for running the model *)

Module Fixtures.

(** A linear congruential generator standing for [random]'s state. *)
Definition lcg_next (s : Z) : Z := (s * 1103515245 + 12345) mod 2 ^ 31.

#[export] Instance lcg : PyRandom Z.
Proof.
  refine {| randbelow := fun n s => (lcg_next s mod n, lcg_next s);
            random_unit := fun s =>
              ((Int64.to_float (lcg_next s) / 2147483648)%float, lcg_next s) |}.
  intros n g Hn. simpl. apply Z.mod_pos_bound. exact Hn.
Defined.

(** Round half to even to an integer, for magnitudes below 2^52. *)
Definition rint (x : float) : float :=
  let big := 4503599627370496%float in
  if (abs x <? big)%float
  then if (x <? 0)%float then (- ((- x + big) - big))%float
       else ((x + big) - big)%float
  else x.

(** numpy's rounding to [d >= 0] decimals: scale, [rint], scale back. *)
Definition round_decimals (d : Z) (x : float) : float :=
  let p := Int64.to_float (10 ^ d) in
  (rint (x * p) / p)%float.

#[export] Instance numeric : Numeric :=
  {| round_ndigits := round_decimals;
     np_round := round_decimals;
     float_sum := fun l => fold_left PrimFloat.add l 0%float;
     float_mean := fun l =>
       (fold_left PrimFloat.add l 0 / Int64.to_float (Z.of_nat (length l)))%float |}.

(** A file system that takes every path. *)
#[export] Instance any_path : FileSystem :=
  {| mkdir_parents := fun _ => true; can_write := fun _ => true |}.

(** Decimal digits of a slice of a string, as a number. *)
Definition digits (s : string) (start len : nat) : option Z :=
  let d := substring start len s in
  if Nat.eqb (String.length d) len
  then option_map Z.of_uint (NilEmpty.uint_of_string d)
  else None.

Definition sep (s : string) (i : nat) (c : ascii) : bool :=
  match String.get i s with
  | Some a => Ascii.eqb a c
  | None => false
  end.

(** A parser for the one layout the Generator writes,
    [YYYY-MM-DD HH:MM:SS]. *)
Definition parse_iso (s : string) : option Timestamp :=
  if Nat.eqb (String.length s) 19
     && sep s 4 "-" && sep s 7 "-" && sep s 10 " " && sep s 13 ":" && sep s 16 ":"
  then
    match digits s 0 4, digits s 5 2, digits s 8 2,
          digits s 11 2, digits s 14 2, digits s 17 2 with
    | Some y, Some m, Some d, Some hh, Some mm, Some ss =>
        Some {| ts_year := y; ts_month := m; ts_day := d;
                ts_hour := hh; ts_minute := mm; ts_second := ss |}
    | _, _, _, _, _, _ => None
    end
  else None.

#[export] Instance iso_parser : DateParser := {| parse_datetime := parse_iso |}.

(** A raw transaction row with the given key, category, quantity and amount. *)
Definition txn (id : string) (cat : string) (qty : Z) (amount : float) : Row :=
  {| transaction_id := Some id; customer_id := Some "CUST000001";
     product_name := "Product_1"; category := Some cat;
     quantity := qty; unit_price := 10%float; total_amount := amount;
     discount_percent := 0; tax_rate := 0.08%float;
     payment_method := "paypal"; status := "completed";
     transaction_date := DateStr "2023-01-07 00:00:00";
     shipping_country := "UK"; customer_email := "customer1@example.com";
     derived := None |}.

(** A frame with a repeated key, a zero quantity and a negative amount. *)
Definition dirty_frame : DataFrame :=
  [ txn "TXN00000000" "Books" 1 50.00;
    txn "TXN00000000" "Books" 1 60.00;
    txn "TXN00000001" "Toys" 0 10.00;
    txn "TXN00000002" "Toys" 2 (-5.00);
    txn "TXN00000003" "Toys" 3 200.01 ]%float.

(** Four clean rows with amounts on and next to the bin edges. *)
Definition boundary_frame : DataFrame :=
  [ txn "TXN00000000" "Books" 1 50.00;
    txn "TXN00000001" "Books" 1 50.01;
    txn "TXN00000002" "Toys" 2 200.00;
    txn "TXN00000003" "Toys" 3 200.01 ]%float.

(** Two Electronics rows of 100.00 and 300.00 and one Books row of 20.00. *)
Definition sales_frame : DataFrame :=
  [ txn "TXN00000000" "Electronics" 1 100.00;
    txn "TXN00000001" "Books" 2 20.00;
    txn "TXN00000002" "Electronics" 3 300.00 ]%float.

(** A database server that is always reachable and refuses the batches
    that hold a negative number. *)
Definition always_up (url : string) : bool := true.

Definition refuse_negative (name : string) (table chunk : list Z) : bool :=
  forallb (fun x => 0 <=? x) chunk.

End Fixtures.

Module PipelineFixtures.
Import Generator Pipeline.

(** A reader that gives back the written frame when asked for the format
    the file was written in, and raises otherwise. *)
Definition same_format (a b : file_format) : bool :=
  match a, b with
  | csv, csv | json, json | parquet, parquet => true
  | _, _ => false
  end.

#[export] Instance faithful_reader : FrameReader :=
  {| read_frame := fun fmt content =>
       if same_format fmt (fst content) then Some (snd content) else None |}.

#[export] Instance left_to_right_sum : SeriesOps :=
  {| series_sum := fun l => fold_left PrimFloat.add l 0%float |}.

(** A database that takes every batch, and one that refuses what is written
    to [transaction_summary]. *)
Definition accept_rows (name : string) (table chunk : list table_row) : bool :=
  true.

Definition refuse_summary (name : string) (table chunk : list table_row)
  : bool :=
  negb (String.eqb name "transaction_summary").

(** The small CSV file holding the sample sales, and one holding a row
    whose date does not parse behind a row that cleaning drops. *)
Definition sales_files : gmap string (file_format * DataFrame) :=
  {[ "data/raw/transactions_small.csv" := (csv, Fixtures.sales_frame) ]}.

Definition undated (id : string) (qty : Z) (when : string) : Row :=
  set_transaction_date (DateStr when) (Fixtures.txn id "Books" qty 10%float).

Definition bad_date_files : gmap string (file_format * DataFrame) :=
  {[ "data/raw/transactions_small.csv" :=
       (csv, [ undated "TXN00000000" 0 "never";
               undated "TXN00000001" 1 "yesterday" ]) ]}.

End PipelineFixtures.


(** * Properties *)

(** ** Order facts on binary64 floats *)

Module FloatFacts.

Lemma SFcompare_antisym (x y : spec_float) (c : comparison) :
  SFcompare x y = Some c -> SFcompare y x = Some (CompOpp c).
Proof.
  destruct x as [s1| s1| |s1 m1 e1], y as [s2| s2| |s2 m2 e2]; simpl;
    intros Hc; inversion Hc; subst; clear Hc;
    try (destruct s1; reflexivity); try (destruct s2; reflexivity);
    try (destruct s1, s2; reflexivity).
  destruct s1, s2; try reflexivity; f_equal;
    rewrite (Z.compare_antisym e1 e2); destruct (e1 ?= e2)%Z; simpl;
    try reflexivity.
  - f_equal. exact (ZC4 m2 m1).
  - exact (ZC4 m2 m1).
Qed.

Lemma SFcompare_total (x y : spec_float) :
  x <> S754_nan -> y <> S754_nan -> exists c, SFcompare x y = Some c.
Proof.
  destruct x, y; simpl; intros Hx Hy; try congruence; eexists; reflexivity.
Qed.

Lemma not_nan_spec (x : float) : is_nan x = false -> Prim2SF x <> S754_nan.
Proof.
  unfold is_nan. rewrite FloatAxioms.eqb_spec. unfold SFeqb.
  intros Hx Hnan. rewrite Hnan in Hx. simpl in Hx. discriminate.
Qed.

(** A strict comparison that holds excludes NaN on both sides. *)
Lemma ltb_not_nan (x y : float) :
  (x <? y)%float = true -> is_nan x = false /\ is_nan y = false.
Proof.
  rewrite FloatAxioms.ltb_spec. unfold is_nan.
  rewrite !FloatAxioms.eqb_spec. unfold SFltb, SFeqb.
  destruct (Prim2SF x) as [s1| s1| |s1 m1 e1], (Prim2SF y) as [s2| s2| |s2 m2 e2];
    simpl; try discriminate; intros _;
    rewrite ?Z.compare_refl, ?Pos.compare_cont_refl;
    repeat match goal with |- context [if ?b then _ else _] => destruct b end;
    simpl; split; reflexivity.
Qed.

(** [x < y] excludes [y <= x]. *)
Lemma ltb_leb_false (x y : float) :
  (x <? y)%float = true -> (y <=? x)%float = false.
Proof.
  rewrite FloatAxioms.ltb_spec, FloatAxioms.leb_spec. unfold SFltb, SFleb.
  destruct (SFcompare (Prim2SF x) (Prim2SF y)) as [c|] eqn:Hc; try discriminate.
  rewrite (SFcompare_antisym _ _ _ Hc).
  destruct c; simpl; intros; congruence.
Qed.

(** Away from NaN the order is total: [x < y] is the negation of [y <= x]. *)
Lemma ltb_negb_leb (x y : float) :
  is_nan x = false -> is_nan y = false ->
  (x <? y)%float = negb (y <=? x)%float.
Proof.
  intros Hx%not_nan_spec Hy%not_nan_spec.
  rewrite FloatAxioms.ltb_spec, FloatAxioms.leb_spec. unfold SFltb, SFleb.
  destruct (SFcompare_total _ _ Hx Hy) as [c Hc]. rewrite Hc.
  rewrite (SFcompare_antisym _ _ _ Hc). destruct c; reflexivity.
Qed.

(** Nothing lies above positive infinity. *)
Lemma infinity_ltb (x : float) : (infinity <? x)%float = false.
Proof.
  rewrite FloatAxioms.ltb_spec. unfold SFltb.
  replace (Prim2SF infinity) with (S754_infinity false) by reflexivity.
  destruct (Prim2SF x) as [s| s| |s m e]; simpl; try reflexivity;
    destruct s; reflexivity.
Qed.

End FloatFacts.

(** ** Formatting and ranges *)

Module PyFacts.

Lemma append_cons (a : ascii) (s t : string) :
  String a s +:+ t = String a (s +:+ t).
Proof. reflexivity. Qed.

Lemma append_inv_head (p s t : string) : p +:+ s = p +:+ t -> s = t.
Proof.
  induction p as [|a p IH]; intros Heq.
  - exact Heq.
  - rewrite !append_cons in Heq. injection Heq as Heq. auto.
Qed.

Lemma zeros_succ (k : nat) : zeros (S k) = String "0" (zeros k).
Proof. reflexivity. Qed.

(** Reading a zero-padded numeral back: the padding adds leading [D0]s. *)
Lemma uint_of_padded (k : nat) (u : Decimal.uint) :
  NilEmpty.uint_of_string (zeros k +:+ NilEmpty.string_of_uint u)
  = Some (Nat.iter k Decimal.D0 u).
Proof.
  induction k as [|k IH].
  - apply NilEmpty.usu.
  - rewrite zeros_succ, append_cons. simpl. rewrite IH. reflexivity.
Qed.

Lemma of_uint_leading_zeros (k : nat) (u : Decimal.uint) :
  Z.of_uint (Nat.iter k Decimal.D0 u) = Z.of_uint u.
Proof. induction k as [|k IH]; [reflexivity | exact IH]. Qed.

Lemma str_int_nonneg (z : Z) :
  0 <= z -> exists u, str_int z = NilEmpty.string_of_uint u /\ Z.of_uint u = z.
Proof.
  intros Hz. unfold str_int.
  pose proof (DecimalZ.of_to z) as Hback.
  destruct z as [|p|p]; try lia; simpl in *.
  - exists (Decimal.D0 Decimal.Nil). split; [reflexivity | exact Hback].
  - exists (Pos.to_uint p). split; [reflexivity | exact Hback].
Qed.

(** [f"{z:0wd}"] determines [z] when [z] is not negative. *)
Lemma format_0d_inj (w : nat) (a b : Z) :
  0 <= a -> 0 <= b -> format_0d w a = format_0d w b -> a = b.
Proof.
  intros Ha Hb. unfold format_0d.
  destruct (a <? 0) eqn:Ea; [lia|]. destruct (b <? 0) eqn:Eb; [lia|].
  destruct (str_int_nonneg a Ha) as (ua & -> & <-).
  destruct (str_int_nonneg b Hb) as (ub & -> & <-).
  intros Heq. apply (f_equal NilEmpty.uint_of_string) in Heq.
  rewrite !uint_of_padded in Heq. injection Heq as Heq.
  apply (f_equal Z.of_uint) in Heq.
  rewrite !of_uint_leading_zeros in Heq. exact Heq.
Qed.

Lemma range_nonneg (n i : Z) : In i (range n) -> 0 <= i.
Proof. unfold range. rewrite in_map_iff. intros (k & <- & _). lia. Qed.

Lemma range_NoDup (n : Z) : List.NoDup (range n).
Proof.
  unfold range. apply Injective_map_NoDup.
  - intros x y. apply Nat2Z.inj.
  - apply seq_NoDup.
Qed.

Lemma range_length (n : Z) : length (range n) = Z.to_nat n.
Proof. unfold range. rewrite length_map, length_seq. reflexivity. Qed.

Lemma list_mul_length {A} (x : A) (n : Z) : length (list_mul x n) = Z.to_nat n.
Proof. apply repeat_length. Qed.

(** Indexing within bounds returns an element. *)
Lemma getitem_in_range {A} (l : list A) (i : Z) :
  0 <= i < Z.of_nat (length l) -> exists x, getitem l i = Ok x.
Proof.
  intros Hi. unfold getitem.
  destruct (i <? 0) eqn:E; [lia|].
  replace ((0 <=? i) && (i <? Z.of_nat (length l))) with true by lia.
  destruct (nth_error l (Z.to_nat i)) as [x|] eqn:Hnth; [eauto|].
  apply nth_error_None in Hnth. lia.
Qed.

(** Reading every index of a list gives the list back. *)
Lemma map_nth_seq {A} (l : list A) (d : A) :
  map (fun i => nth i l d) (seq 0 (length l)) = l.
Proof.
  induction l as [|x l IH]; [reflexivity|].
  simpl. f_equal. rewrite <- seq_shift, map_map. exact IH.
Qed.

End PyFacts.

(** ** The random module *)

Module RandomFacts.
Section WithGenerator.
Context {G : Type} `{PyRandom G}.

Lemma replicate_length {A} (m : Random.Rand G A) (n : nat) :
  forall g xs g', Random.replicate n m g = Ok (xs, g') -> length xs = n.
Proof.
  induction n as [|n IH]; simpl; intros g xs g' Hrun.
  - unfold Random.ret in Hrun. injection Hrun as <- _. reflexivity.
  - unfold Random.bind, Random.ret in Hrun.
    destruct (m g) as [[x g1]|e]; [|discriminate].
    destruct (Random.replicate n m g1) as [[ys g2]|e] eqn:Hrest; [|discriminate].
    injection Hrun as <- _. simpl. f_equal. eapply IH. exact Hrest.
Qed.

Lemma comprehension_length {A} (m : Random.Rand G A) (n : Z) g xs g' :
  Random.comprehension n m g = Ok (xs, g') -> length xs = Z.to_nat n.
Proof. apply replicate_length. Qed.

(** Draws that cannot fail can be repeated any number of times. *)
Lemma replicate_ok {A} (m : Random.Rand G A) :
  (forall g, exists x g', m g = Ok (x, g')) ->
  forall n g, exists xs g', Random.replicate n m g = Ok (xs, g').
Proof.
  intros Hm. induction n as [|n IH]; intros g; simpl.
  - eexists _, _. reflexivity.
  - unfold Random.bind, Random.ret.
    destruct (Hm g) as (x & g1 & ->).
    destruct (IH g1) as (xs & g2 & ->).
    eexists _, _. reflexivity.
Qed.

(** A draw that always raises makes every non-empty comprehension raise. *)
Lemma comprehension_raise {A} (m : Random.Rand G A) (e : exn) (n : Z) :
  (forall g, m g = Raise e) -> 0 < n ->
  forall g, Random.comprehension n m g = Raise e.
Proof.
  intros Hm Hn g. unfold Random.comprehension.
  destruct (Z.to_nat n) as [|k] eqn:Hk; [lia|].
  simpl. unfold Random.bind. rewrite Hm. reflexivity.
Qed.

(** No draw is made when the count is not positive. *)
Lemma comprehension_nonpos {A} (m : Random.Rand G A) (n : Z) g :
  n <= 0 -> Random.comprehension n m g = Ok ([], g).
Proof.
  intros Hn. unfold Random.comprehension.
  replace (Z.to_nat n) with O by lia. reflexivity.
Qed.

Lemma randint_ok (a b : Z) g :
  a <= b -> exists x g', Random.randint a b g = Ok (x, g').
Proof.
  intros Hab. unfold Random.randint, Random.randrange.
  replace (0 <? b + 1 - a) with true by lia.
  destruct (randbelow (b + 1 - a) g) as [r g1]. eexists _, _. reflexivity.
Qed.

Lemma randint_empty (a b : Z) g :
  b < a -> Random.randint a b g = Raise (ValueError (EmptyRange a (b + 1))).
Proof.
  intros Hab. unfold Random.randint, Random.randrange.
  replace (0 <? b + 1 - a) with false by lia. reflexivity.
Qed.

Lemma choice_ok {A} (l : list A) g :
  l <> [] -> exists x g', Random.choice l g = Ok (x, g').
Proof.
  intros Hl. destruct l as [|a l]; [congruence|].
  unfold Random.choice.
  pose proof (randbelow_range (Z.of_nat (length (a :: l))) g) as Hrange.
  destruct (randbelow (Z.of_nat (length (a :: l))) g) as [i g1].
  simpl fst in Hrange.
  destruct (PyFacts.getitem_in_range (a :: l) i) as [x ->].
  - apply Hrange. simpl. lia.
  - eexists _, _. reflexivity.
Qed.

Lemma uniform_ok (a b : float) g :
  exists x g', Random.uniform a b g = Ok (x, g').
Proof.
  unfold Random.uniform. destruct (random_unit g) as [u g1].
  eexists _, _. reflexivity.
Qed.

Lemma bind_ok {A B} (m : Random.Rand G A) (k : A -> Random.Rand G B) :
  (forall g, exists x g', m g = Ok (x, g')) ->
  (forall x g, exists y g', k x g = Ok (y, g')) ->
  forall g, exists y g', Random.bind m k g = Ok (y, g').
Proof.
  intros Hm Hk g. unfold Random.bind.
  destruct (Hm g) as (x & g1 & ->). apply Hk.
Qed.

Lemma comprehension_ok {A} (m : Random.Rand G A) (n : Z) :
  (forall g, exists x g', m g = Ok (x, g')) ->
  forall g, exists xs g', Random.comprehension n m g = Ok (xs, g').
Proof. intros Hm g. apply replicate_ok. exact Hm. Qed.

End WithGenerator.
End RandomFacts.

(** ** The Generator *)

Module GeneratorFacts.
Import Generator.

Section WithLibraries.
Context {G : Type} `{PyRandom G} `{Numeric} `{FileSystem}.

(** One step through a chain of draws that ran to the end: name the drawn
    list and record its length. *)
Ltac run_draw Hrun :=
  unfold Random.bind at 1 in Hrun;
  match type of Hrun with
  | match ?c with _ => _ end = _ =>
      let Hdraw := fresh "Hdraw" in
      destruct c as [[? ?]|?] eqn:Hdraw; [|discriminate Hrun];
      apply RandomFacts.comprehension_length in Hdraw
  end.

(** Whatever is drawn, the dict holds the sequential keys and columns of
    [num_rows] cells each. *)
Lemma build_columns_shape (n : Z) g d g' :
  build_columns n g = Ok (d, g') ->
  c_transaction_id d = map (fun i => "TXN" +:+ format_0d 8 i) (range n)
  /\ List.Forall (fun k => k = Z.to_nat n) (column_lengths d).
Proof.
  unfold build_columns. intros Hrun.
  do 11 run_draw Hrun.
  unfold Random.ret in Hrun. injection Hrun as <- _.
  split; [reflexivity|].
  unfold column_lengths. simpl.
  rewrite length_map, PyFacts.range_length, !PyFacts.list_mul_length.
  repeat constructor; congruence.
Qed.

Lemma of_columns_rows (d : Columns) (df : DataFrame) :
  of_columns d = Ok df ->
  df = map (row_at d) (seq 0 (length (c_transaction_id d))).
Proof.
  unfold of_columns.
  destruct (forallb _ _); intros Hdf; [|discriminate].
  injection Hdf as <-. reflexivity.
Qed.

Lemma of_columns_ok (d : Columns) (n : nat) :
  List.Forall (fun k => k = n) (column_lengths d) ->
  of_columns d = Ok (map (row_at d) (seq 0 (length (c_transaction_id d)))).
Proof.
  intros Hlen. unfold of_columns.
  replace (forallb _ _) with true; [reflexivity|].
  symmetry. apply forallb_forall. intros k Hk. apply Nat.eqb_eq.
  rewrite List.Forall_forall in Hlen.
  rewrite (Hlen k Hk). apply Hlen. unfold column_lengths. left. reflexivity.
Qed.

Lemma assign_keeps_id (df : DataFrame) :
  map transaction_id (assign_total_amount df) = map transaction_id df.
Proof. unfold assign_total_amount. rewrite map_map. reflexivity. Qed.

(** Running the assignment of line 64 leaves every row with the rounded
    value of the formula over its own cells. *)
Lemma assign_total_amount_spec (df : DataFrame) :
  List.Forall (fun r => total_amount r = np_round 2 (amount_formula r))
    (assign_total_amount df).
Proof.
  unfold assign_total_amount. apply List.Forall_forall.
  intros r Hr. apply in_map_iff in Hr. destruct Hr as (r0 & <- & _).
  reflexivity.
Qed.

(** The sequential keys are pairwise distinct. *)
Lemma sequential_ids_NoDup (n : Z) :
  List.NoDup (map (fun i => Some ("TXN" +:+ format_0d 8 i)) (range n)).
Proof.
  apply NoDup_map_NoDup_ForallPairs; [|apply PyFacts.range_NoDup].
  intros i j Hi Hj Heq. injection Heq as Heq.
  apply PyFacts.append_inv_head in Heq.
  apply (PyFacts.format_0d_inj 8); eauto using PyFacts.range_nonneg.
Qed.

(** A frame that [generate_frame] returns has [num_rows] rows (none for
    [num_rows <= 0]), the sequential keys, and the computed amounts. *)
Lemma generate_frame_shape (n : Z) g df g' :
  generate_frame n g = Ok (df, g') ->
  length df = Z.to_nat n
  /\ map transaction_id df
     = map (fun i => Some ("TXN" +:+ format_0d 8 i)) (range n)
  /\ List.Forall (fun r => total_amount r = np_round 2 (amount_formula r)) df.
Proof.
  unfold generate_frame, Random.bind, Random.lift, Random.ret.
  destruct (build_columns n g) as [[d g1]|e] eqn:Hcols; [|discriminate].
  destruct (of_columns d) as [rows|e] eqn:Hrows; [|discriminate].
  intros Hrun. injection Hrun as <- _.
  apply build_columns_shape in Hcols. destruct Hcols as [Hids Hlen].
  apply of_columns_rows in Hrows. subst rows.
  assert (Hn : length (c_transaction_id d) = Z.to_nat n).
  { rewrite Hids, length_map. apply PyFacts.range_length. }
  split; [|split].
  - unfold assign_total_amount. rewrite !length_map, length_seq. exact Hn.
  - rewrite assign_keeps_id, map_map. simpl.
    rewrite <- (map_map (fun i => nth i (c_transaction_id d) "") Some).
    rewrite PyFacts.map_nth_seq, Hids, map_map. reflexivity.
  - apply assign_total_amount_spec.
Qed.

(** The file written on the side does not change what is returned. *)
Lemma generate_sample_data_frame (n : Z) fmt path files g df files' g' :
  generate_sample_data n fmt path files g = Ok (df, files', g') ->
  generate_frame n g = Ok (df, g').
Proof.
  unfold generate_sample_data.
  destruct (generate_frame n g) as [[df0 g0]|e]; [|discriminate].
  destruct path as [p|];
    [destruct (String.eqb p ""), (mkdir_parents p), (can_write p), fmt|];
    simpl; intros Hrun; try discriminate Hrun;
    injection Hrun as <- _ <-; reflexivity.
Qed.

(** Once the frame is built, the call returns it, unless saving it raises
    [OSError]; without a path nothing is saved. *)
Lemma generate_sample_data_outcome (n : Z) fmt path files g df g' :
  generate_frame n g = Ok (df, g') ->
  generate_sample_data n fmt None files g = Ok (df, files, g')
  /\ ((exists files', generate_sample_data n fmt path files g
                      = Ok (df, files', g'))
      \/ generate_sample_data n fmt path files g = Raise OSError).
Proof.
  unfold generate_sample_data. intros ->. split; [reflexivity|].
  destruct path as [p|];
    [destruct (String.eqb p ""), (mkdir_parents p), (can_write p), fmt|];
    simpl; eauto.
Qed.

Lemma generate_sample_data_raise (n : Z) fmt path files g e :
  generate_frame n g = Raise e ->
  generate_sample_data n fmt path files g = Raise e.
Proof. unfold generate_sample_data. intros ->. reflexivity. Qed.

(** From ten rows on, no draw can fail. *)
Lemma build_columns_ok (n : Z) :
  10 <= n -> forall g, exists d g', build_columns n g = Ok (d, g').
Proof.
  intros Hn. unfold build_columns.
  assert (Hpool : 1 <= n / 10) by (apply Z.div_le_lower_bound; lia).
  repeat (apply RandomFacts.bind_ok;
          [apply RandomFacts.comprehension_ok | intros ?]);
    repeat (apply RandomFacts.bind_ok; [|intros ?]);
    intros g;
    try (apply RandomFacts.randint_ok; lia);
    try (apply RandomFacts.choice_ok; discriminate);
    try apply RandomFacts.uniform_ok;
    unfold Random.ret; eexists _, _; reflexivity.
Qed.

(** Below ten rows the customer pool [num_rows // 10] is empty, and the first
    draw from it raises. *)
Lemma build_columns_small (n : Z) g :
  1 <= n <= 9 -> build_columns n g = Raise (ValueError (EmptyRange 1 1)).
Proof.
  intros Hn. unfold build_columns. unfold Random.bind at 1.
  rewrite (RandomFacts.comprehension_raise _ (ValueError (EmptyRange 1 1)));
    [reflexivity| |lia].
  intros g0. unfold Random.bind.
  rewrite RandomFacts.randint_empty.
  - replace (n / 10) with 0; [reflexivity|].
    symmetry. apply Z.div_small. lia.
  - replace (n / 10) with 0; [lia|]. symmetry. apply Z.div_small. lia.
Qed.

(** With no row asked for, nothing is drawn and the dict is empty. *)
Lemma generate_frame_nonpos (n : Z) g :
  n <= 0 -> generate_frame n g = Ok ([], g).
Proof.
  intros Hn. unfold generate_frame, build_columns.
  unfold Random.bind.
  repeat (rewrite RandomFacts.comprehension_nonpos by exact Hn).
  unfold Random.ret, Random.lift, range, list_mul.
  replace (Z.to_nat n) with O by lia. reflexivity.
Qed.

(** X1: every frame the Generator returns has [num_rows] rows (none for
    [num_rows <= 0]) with pairwise distinct keys, and from ten rows on it
    always returns one (saving it aside). *)
Lemma generate_rows_and_ids (n : Z) fmt path files g :
  (forall df files' g',
      generate_sample_data n fmt path files g = Ok (df, files', g') ->
      Z.of_nat (length df) = Z.max 0 n
      /\ List.NoDup (map transaction_id df))
  /\ (10 <= n ->
      exists df g',
        generate_sample_data n fmt None files g = Ok (df, files, g')).
Proof.
  split.
  - intros df files' g' Hrun.
    apply generate_sample_data_frame, generate_frame_shape in Hrun.
    destruct Hrun as (Hlen & Hids & _). split; [lia|].
    rewrite Hids. apply sequential_ids_NoDup.
  - intros Hn.
    assert (Hframe : exists df g', generate_frame n g = Ok (df, g')).
    { unfold generate_frame, Random.bind, Random.lift, Random.ret.
      destruct (build_columns_ok n Hn g) as (d & g1 & Hcols). rewrite Hcols.
      apply build_columns_shape in Hcols. destruct Hcols as [_ Hlen].
      rewrite (of_columns_ok d _ Hlen). eexists _, _. reflexivity. }
    destruct Hframe as (df & g' & Hframe). exists df, g'.
    apply (generate_sample_data_outcome n fmt None files g df g' Hframe).
Qed.

(** C1, at the failing input: asked for five rows, the Generator returns no
    dataset of five rows with distinct keys; it raises the [ValueError] of a
    draw from the empty range [randint(1, 0)]. *)
Theorem generate_five_rows_raises fmt path files g :
  generate_sample_data 5 fmt path files g
  = Raise (ValueError (EmptyRange 1 1)).
Proof.
  apply generate_sample_data_raise. unfold generate_frame, Random.bind.
  rewrite build_columns_small by lia. reflexivity.
Qed.

(** C2: in every row of every generated dataset, [total_amount] is
    [quantity * unit_price * (1 - discount_percent / 100) * (1 + tax_rate)]
    rounded to two decimals. *)
Theorem generated_total_amount (n : Z) fmt path files g df files' g' :
  generate_sample_data n fmt path files g = Ok (df, files', g') ->
  List.Forall
    (fun r =>
       total_amount r
       = np_round 2
           (Int64.to_float (quantity r) * unit_price r
            * (1 - Int64.to_float (discount_percent r) / 100)
            * (1 + tax_rate r))%float)
    df.
Proof.
  intros Hrun. apply generate_sample_data_frame, generate_frame_shape in Hrun.
  destruct Hrun as (_ & _ & Hamount). exact Hamount.
Qed.

(** C7, as the code has it: for every [num_rows <= 0] the Generator checks
    nothing and raises no error about its argument; it draws no random value
    and builds the empty dataset, which it returns (the only failure left is
    the [OSError] of saving it, when a path is given). *)
Theorem generate_nonpositive_is_empty (n : Z) fmt path files g :
  n <= 0 ->
  generate_sample_data n fmt None files g = Ok ([], files, g)
  /\ ((exists files', generate_sample_data n fmt path files g
                      = Ok ([], files', g))
      \/ generate_sample_data n fmt path files g = Raise OSError).
Proof.
  intros Hn. apply generate_sample_data_outcome.
  apply generate_frame_nonpos. exact Hn.
Qed.

(** C10: for every [num_rows] from 1 to 9 the customer pool [num_rows // 10]
    is 0, and the Generator raises the [ValueError] of [randint(1, 0)], a
    draw from an empty range, instead of returning a dataset. *)
Theorem generate_below_ten_raises (n : Z) fmt path files g :
  1 <= n <= 9 ->
  n / 10 = 0
  /\ generate_sample_data n fmt path files g
     = Raise (ValueError (EmptyRange 1 (n / 10 + 1))).
Proof.
  intros Hn. assert (Hpool : n / 10 = 0) by (apply Z.div_small; lia).
  split; [exact Hpool|]. rewrite Hpool.
  apply generate_sample_data_raise. unfold generate_frame, Random.bind.
  rewrite build_columns_small by exact Hn. reflexivity.
Qed.

End WithLibraries.
End GeneratorFacts.

(** ** The Transformer *)

Module EtlFacts.
Import Etl.

Lemma drop_duplicates_from_incl (df : DataFrame) :
  forall seen r, In r (drop_duplicates_from seen df) -> In r df.
Proof.
  induction df as [|r0 df IH]; simpl; intros seen r Hr; [exact Hr|].
  destruct (bool_decide (transaction_id r0 ∈ seen)).
  - right. eapply IH. exact Hr.
  - destruct Hr as [Hr|Hr]; [left; exact Hr | right; eapply IH; exact Hr].
Qed.

Lemma drop_duplicates_from_length (df : DataFrame) :
  forall seen, (length (drop_duplicates_from seen df) <= length df)%nat.
Proof.
  induction df as [|r0 df IH]; simpl; intros seen; [lia|].
  destruct (bool_decide (transaction_id r0 ∈ seen)); simpl.
  - specialize (IH seen). lia.
  - specialize (IH (transaction_id r0 :: seen)). lia.
Qed.

(** No key that was already seen survives. *)
Lemma drop_duplicates_from_fresh (df : DataFrame) :
  forall seen r, In r (drop_duplicates_from seen df) -> transaction_id r ∉ seen.
Proof.
  induction df as [|r0 df IH]; simpl; intros seen r Hr; [contradiction|].
  destruct (bool_decide (transaction_id r0 ∈ seen)) eqn:Hseen.
  - eapply IH. exact Hr.
  - apply bool_decide_eq_false in Hseen. destruct Hr as [<-|Hr]; [exact Hseen|].
    apply IH in Hr. intros Hin. apply Hr. right. exact Hin.
Qed.

Lemma drop_duplicates_from_NoDup (df : DataFrame) :
  forall seen, List.NoDup (map transaction_id (drop_duplicates_from seen df)).
Proof.
  induction df as [|r0 df IH]; simpl; intros seen; [constructor|].
  destruct (bool_decide (transaction_id r0 ∈ seen)); [apply IH|].
  simpl. constructor; [|apply IH].
  intros Hin. apply in_map_iff in Hin. destruct Hin as (r & Hid & Hr).
  apply drop_duplicates_from_fresh in Hr. apply Hr. rewrite Hid. left.
Qed.

(** A frame whose keys are distinct and unseen is left as it is. *)
Lemma drop_duplicates_from_id (df : DataFrame) :
  forall seen,
    List.NoDup (map transaction_id df) ->
    (forall r, In r df -> transaction_id r ∉ seen) ->
    drop_duplicates_from seen df = df.
Proof.
  induction df as [|r0 df IH]; simpl; intros seen Hnd Hfresh; [reflexivity|].
  inversion Hnd as [|k ks Hk Hrest]; subst.
  rewrite bool_decide_eq_false_2 by (apply Hfresh; left; reflexivity).
  f_equal. apply IH; [exact Hrest|].
  intros r Hr Hin. apply elem_of_cons in Hin. destruct Hin as [Heq|Hin].
  - apply Hk. rewrite <- Heq. apply in_map. exact Hr.
  - eapply Hfresh; [right; exact Hr | exact Hin].
Qed.

Lemma NoDup_map_filter {A B} (f : A -> B) (p : A -> bool) (l : list A) :
  List.NoDup (map f l) -> List.NoDup (map f (List.filter p l)).
Proof.
  induction l as [|x l IH]; simpl; intros Hnd; [constructor|].
  inversion Hnd as [|k ks Hk Hrest]; subst.
  destruct (p x); simpl; [|auto].
  constructor; [|auto].
  intros Hin. apply Hk. apply in_map_iff in Hin.
  destruct Hin as (y & Hy & Hin). apply filter_In in Hin.
  rewrite <- Hy. apply in_map. tauto.
Qed.

Lemma filter_id {A} (p : A -> bool) (l : list A) :
  List.Forall (fun x => p x = true) l -> List.filter p l = l.
Proof.
  induction 1 as [|x l Hx _ IH]; simpl; [reflexivity|].
  rewrite Hx, IH. reflexivity.
Qed.

(** What the cleaning steps leave: rows of the input, fewer or as many, with
    distinct keys, nothing missing, positive amount and quantity. *)
Lemma clean_spec (df : DataFrame) :
  (length (clean df) <= length df)%nat
  /\ List.NoDup (map transaction_id (clean df))
  /\ List.Forall
       (fun r => In r df /\ notna r = true
                 /\ positive_amount r = true /\ positive_quantity r = true)
       (clean df).
Proof.
  unfold clean, dropna, drop_duplicates. split; [|split].
  - etransitivity; [apply filter_length_le|].
    etransitivity; [apply filter_length_le|].
    etransitivity; [apply filter_length_le|].
    apply drop_duplicates_from_length.
  - do 3 apply NoDup_map_filter. apply drop_duplicates_from_NoDup.
  - apply List.Forall_forall. intros r Hr.
    apply filter_In in Hr. destruct Hr as [Hr Hq].
    apply filter_In in Hr. destruct Hr as [Hr Ha].
    apply filter_In in Hr. destruct Hr as [Hr Hna].
    apply drop_duplicates_from_incl in Hr. tauto.
Qed.

(** A frame that meets the cleaning predicates is a fixed point of them. *)
Lemma clean_id (df : DataFrame) :
  List.NoDup (map transaction_id df) ->
  List.Forall (fun r => notna r = true /\ positive_amount r = true
                        /\ positive_quantity r = true) df ->
  clean df = df.
Proof.
  intros Hnd Hok. unfold clean, dropna, drop_duplicates.
  rewrite drop_duplicates_from_id; [|exact Hnd|intros r _; apply not_elem_of_nil].
  rewrite (filter_id notna df), (filter_id positive_amount df),
    (filter_id positive_quantity df); [reflexivity| | |];
    (eapply List.Forall_impl; [|exact Hok]); simpl; intros r Hr; apply Hr.
Qed.

(** [pd.cut] on a positive amount: the bins are [(0, 50]], [(50, 200]] and
    [(200, inf]], closed on the right. *)
Lemma cut_positive (x : float) :
  (0 <? x)%float = true ->
  cut bins labels x
  = Some (if (x <=? 50)%float then low_value
          else if (x <=? 200)%float then medium_value else high_value).
Proof.
  intros Hpos. destruct (FloatFacts.ltb_not_nan _ _ Hpos) as [_ Hnan].
  unfold cut, bins, searchsorted_left. rewrite Hpos, Hnan.
  rewrite FloatFacts.infinity_ltb.
  rewrite (FloatFacts.ltb_negb_leb 50 x), (FloatFacts.ltb_negb_leb 200 x)
    by (reflexivity || exact Hnan).
  destruct (x <=? 50)%float; [reflexivity|].
  destruct (x <=? 200)%float; reflexivity.
Qed.

Section WithLibraries.
Context `{Numeric} `{DateParser}.

Lemma to_datetime_rows (df : DataFrame) :
  forall parsed, to_datetime df = Ok parsed -> map snd parsed = df.
Proof.
  induction df as [|r df IH]; simpl; intros parsed Hrun.
  - injection Hrun as <-. reflexivity.
  - destruct (to_datetime_cell (transaction_date r)) as [t|e]; [|discriminate].
    simpl in Hrun. destruct (to_datetime df) as [rest|e]; [|discriminate].
    simpl in Hrun. injection Hrun as <-. simpl. f_equal. apply IH. reflexivity.
Qed.

(** [enrich] writes the date and the derived columns, nothing else. *)
Lemma enrich_fields (p : Timestamp * Row) :
  transaction_id (enrich p) = transaction_id (snd p)
  /\ customer_id (enrich p) = customer_id (snd p)
  /\ total_amount (enrich p) = total_amount (snd p)
  /\ quantity (enrich p) = quantity (snd p)
  /\ transaction_date (enrich p) = DateTs (fst p).
Proof. destruct p as [t r]. repeat split; reflexivity. Qed.

Lemma enrich_segment (p : Timestamp * Row) :
  exists d, derived (enrich p) = Some d
            /\ customer_segment d = cut bins labels (total_amount (enrich p)).
Proof. destruct p as [t r]. eexists. split; reflexivity. Qed.

(** The output of a successful run is the cleaned input, row by row, each
    row enriched with its parsed date. *)
Lemma transform_data_rows (df out : DataFrame) :
  transform_data df = Ok out ->
  exists parsed, out = map enrich parsed /\ map snd parsed = clean df.
Proof.
  unfold transform_data.
  destruct (to_datetime (clean df)) as [parsed|e] eqn:Hparse; [|discriminate].
  simpl. intros Hout. injection Hout as <-.
  exists parsed. split; [reflexivity|]. apply to_datetime_rows. exact Hparse.
Qed.

(** Every output row is the enrichment of a row that passed the cleaning. *)
Lemma transform_data_row (df out : DataFrame) (r : Row) :
  transform_data df = Ok out -> In r out ->
  exists p, r = enrich p /\ In (snd p) (clean df).
Proof.
  intros Hrun Hr. destruct (transform_data_rows _ _ Hrun) as (parsed & -> & Hrows).
  apply in_map_iff in Hr. destruct Hr as (p & <- & Hp).
  exists p. split; [reflexivity|]. rewrite <- Hrows. apply in_map. exact Hp.
Qed.

Lemma transform_data_ids (df out : DataFrame) :
  transform_data df = Ok out ->
  map transaction_id out = map transaction_id (clean df)
  /\ length out = length (clean df).
Proof.
  intros Hrun. destruct (transform_data_rows _ _ Hrun) as (parsed & -> & Hrows).
  rewrite <- Hrows, !map_map, !length_map. split; [|reflexivity].
  apply map_ext. intros p. apply enrich_fields.
Qed.

(** C3: whatever the input, the output of the Transformer has no row with
    [total_amount <= 0], none with [quantity <= 0], no two rows with one
    [transaction_id], and no more rows than the input. *)
Theorem transform_data_output_valid (df out : DataFrame) :
  transform_data df = Ok out ->
  List.Forall
    (fun r => (total_amount r <=? 0)%float = false /\ (quantity r <=? 0) = false)
    out
  /\ List.NoDup (map transaction_id out)
  /\ (length out <= length df)%nat.
Proof.
  intros Hrun. destruct (clean_spec df) as (Hlen & Hnd & Hrows).
  destruct (transform_data_ids _ _ Hrun) as [Hids Hsame].
  split; [|split].
  - apply List.Forall_forall. intros r Hr.
    destruct (transform_data_row _ _ _ Hrun Hr) as (p & -> & Hp).
    rewrite List.Forall_forall in Hrows.
    destruct (Hrows _ Hp) as (_ & _ & Hamount & Hqty).
    destruct (enrich_fields p) as (_ & _ & -> & -> & _).
    split.
    + apply FloatFacts.ltb_leb_false. exact Hamount.
    + unfold positive_quantity in Hqty. lia.
  - rewrite Hids. exact Hnd.
  - rewrite Hsame. exact Hlen.
Qed.

(** C4: every surviving row gets its [customer_segment] from the bins
    [(0, 50]], [(50, 200]], [(200, inf)], closed on the right; so an amount
    of 50.00 is low_value, 50.01 medium_value, 200.00 medium_value and
    200.01 high_value. *)
Theorem transform_data_segments (df out : DataFrame) :
  transform_data df = Ok out ->
  List.Forall
    (fun r =>
       exists d,
         derived r = Some d
         /\ (0 <? total_amount r)%float = true
         /\ customer_segment d
            = Some (if (total_amount r <=? 50)%float then low_value
                    else if (total_amount r <=? 200)%float then medium_value
                         else high_value)
         /\ (total_amount r = 50.00%float -> customer_segment d = Some low_value)
         /\ (total_amount r = 50.01%float -> customer_segment d = Some medium_value)
         /\ (total_amount r = 200.00%float -> customer_segment d = Some medium_value)
         /\ (total_amount r = 200.01%float -> customer_segment d = Some high_value))
    out.
Proof.
  intros Hrun. apply List.Forall_forall. intros r Hr.
  destruct (transform_data_row _ _ _ Hrun Hr) as (p & -> & Hp).
  destruct (clean_spec df) as (_ & _ & Hrows).
  rewrite List.Forall_forall in Hrows.
  destruct (Hrows _ Hp) as (_ & _ & Hamount & _).
  destruct (enrich_segment p) as (d & Hd & Hseg).
  destruct (enrich_fields p) as (_ & _ & Hsame & _).
  unfold positive_amount in Hamount. rewrite <- Hsame in Hamount.
  rewrite (cut_positive _ Hamount) in Hseg.
  exists d. repeat split; try assumption;
    intros Hval; rewrite Hseg, Hval; reflexivity.
Qed.

Lemma enrich_enriched (t : Timestamp) (r : Row) :
  enrich (t, enrich (t, r)) = enrich (t, r).
Proof. reflexivity. Qed.

(** Parsing the dates of an enriched frame finds the timestamps it holds. *)
Lemma to_datetime_enriched (parsed : list (Timestamp * Row)) :
  to_datetime (map enrich parsed)
  = Ok (map (fun p => (fst p, enrich p)) parsed).
Proof.
  induction parsed as [|[t r] parsed IH]; [reflexivity|].
  simpl. rewrite IH. reflexivity.
Qed.

(** The Transformer maps each of its outputs to itself. *)
Lemma transform_data_fixed (df out : DataFrame) :
  transform_data df = Ok out -> transform_data out = Ok out.
Proof.
  intros Hrun.
  destruct (clean_spec df) as (_ & Hclean & Hrows).
  assert (Hnd : List.NoDup (map transaction_id out)).
  { destruct (transform_data_ids _ _ Hrun) as [-> _]. exact Hclean. }
  destruct (transform_data_rows _ _ Hrun) as (parsed & -> & Hparsed).
  unfold transform_data. rewrite clean_id.
  - rewrite to_datetime_enriched. simpl. f_equal.
    rewrite map_map. apply map_ext. intros [t r]. apply enrich_enriched.
  - exact Hnd.
  - apply List.Forall_forall. intros r Hr.
    apply in_map_iff in Hr. destruct Hr as (p & <- & Hp).
    rewrite List.Forall_forall in Hrows.
    assert (Hin : In (snd p) (clean df)) by (rewrite <- Hparsed; apply in_map; exact Hp).
    destruct (Hrows _ Hin) as (_ & Hna & Hamount & Hqty).
    destruct (enrich_fields p) as (Hid & Hcust & Htot & Hq & _).
    unfold notna, positive_amount, positive_quantity in *.
    rewrite Hid, Hcust, Htot, Hq. auto.
Qed.

(** C6: on an input that already satisfies the cleaning predicates (distinct
    keys, no missing key or amount, positive amount and quantity) the
    Transformer is idempotent: a second run returns the record set of the
    first; and the first run drops no row. *)
Theorem transform_data_idempotent (df out : DataFrame) :
  List.NoDup (map transaction_id df) ->
  List.Forall (fun r => notna r = true /\ positive_amount r = true
                        /\ positive_quantity r = true) df ->
  transform_data df = Ok out ->
  transform_data out = Ok out /\ length out = length df.
Proof.
  intros Hnd Hok Hrun. split.
  - exact (transform_data_fixed _ _ Hrun).
  - destruct (transform_data_ids _ _ Hrun) as [_ ->].
    rewrite (clean_id df Hnd Hok). reflexivity.
Qed.

End WithLibraries.
End EtlFacts.

(** ** The Aggregator *)

Module AggregatorFacts.
Import Etl.


Lemma insert_key_perm (k : string) (l : list string) :
  Permutation (insert_key k l) (k :: l).
Proof.
  induction l as [|h t IH]; simpl; [reflexivity|].
  destruct (String.leb k h); [reflexivity|].
  rewrite IH. apply perm_swap.
Qed.

Lemma sort_keys_perm (l : list string) : Permutation (sort_keys l) l.
Proof.
  induction l as [|k l IH]; simpl; [reflexivity|].
  rewrite insert_key_perm. constructor. exact IH.
Qed.

(** The categories collected are those of the rows, each once, and none
    that was already seen. *)
Lemma present_categories_In (df : DataFrame) :
  forall seen c,
    In c (present_categories seen df)
    <-> (exists r, In r df /\ category r = Some c) /\ c ∉ seen.
Proof.
  induction df as [|r0 df IH]; simpl; intros seen c.
  - split; [contradiction | intros [(r & [] & _) _]].
  - destruct (category r0) as [c0|] eqn:Hc0.
    + destruct (bool_decide (c0 ∈ seen)) eqn:Hseen.
      * apply bool_decide_eq_true in Hseen. rewrite IH. split.
        -- intros [(r & Hr & Hc) Hfresh]. split; [|exact Hfresh]. eauto.
        -- intros [(r & [<-|Hr] & Hc) Hfresh]; [congruence|]. eauto.
      * apply bool_decide_eq_false in Hseen. simpl. rewrite IH. split.
        -- intros [<-|[(r & Hr & Hc) Hfresh]].
           ++ split; [eauto | exact Hseen].
           ++ split; [eauto|]. intros Hin. apply Hfresh. right. exact Hin.
        -- intros [(r & Hr & Hc) Hfresh].
           destruct (decide (c0 = c)) as [Heq|Hne]; [left; exact Heq|].
           right. split.
           ++ destruct Hr as [<-|Hr]; [congruence | eauto].
           ++ intros Hin. apply elem_of_cons in Hin.
              destruct Hin as [Heq|Hin]; [congruence | exact (Hfresh Hin)].
    + rewrite IH. split.
      * intros [(r & Hr & Hc) Hfresh]. split; [eauto | exact Hfresh].
      * intros [(r & [<-|Hr] & Hc) Hfresh]; [congruence|]. eauto.
Qed.

Lemma present_categories_NoDup (df : DataFrame) :
  forall seen, List.NoDup (present_categories seen df).
Proof.
  induction df as [|r0 df IH]; simpl; intros seen; [constructor|].
  destruct (category r0) as [c0|]; [|apply IH].
  destruct (bool_decide (c0 ∈ seen)); [apply IH|].
  constructor; [|apply IH].
  intros Hin. apply present_categories_In in Hin. destruct Hin as [_ Hfresh].
  apply Hfresh. left.
Qed.

(** The group keys: every category that occurs in the frame, once. *)
Lemma group_keys_spec (df : DataFrame) :
  List.NoDup (group_keys df)
  /\ forall c, In c (group_keys df)
               <-> exists r, In r df /\ category r = Some c.
Proof.
  unfold group_keys. split.
  - eapply Permutation_NoDup; [symmetry; apply sort_keys_perm|].
    apply present_categories_NoDup.
  - intros c. split.
    + intros Hin. eapply Permutation_in in Hin; [|apply sort_keys_perm].
      apply present_categories_In in Hin. apply Hin.
    + intros Hex. eapply Permutation_in; [symmetry; apply sort_keys_perm|].
      apply present_categories_In. split; [exact Hex | apply not_elem_of_nil].
Qed.

Section WithLibraries.
Context `{Numeric} `{DateParser}.

Lemma create_summary_categories (df : DataFrame) :
  map s_category (create_summary df) = group_keys df.
Proof.
  unfold create_summary. rewrite !map_map. simpl. apply map_id.
Qed.





End WithLibraries.
End AggregatorFacts.

(** ** The Loader *)

Module LoaderFacts.
Import Loader.

Section WithDatabase.
Context {R : Type}.
Variable reachable : string -> bool.
Variable accepts : string -> list R -> list R -> bool.
Variable scope : tx_scope.

(** The insert loop ends normally or on the database's refusal of a batch. *)
Lemma insert_chunks_outcome name (frame : list R) cs ids :
  forall table,
    fst (insert_chunks accepts name frame cs ids table) = Ok tt
    \/ fst (insert_chunks accepts name frame cs ids table) = Raise DBAPIError.
Proof.
  induction ids as [|i ids IH]; simpl; intros table; [left; reflexivity|].
  destruct (_ <=? _); [left; reflexivity|].
  destruct (accepts _ _ _); [apply IH | right; reflexivity].
Qed.

(** Batches are consecutive slices: started on [base] followed by the rows
    before batch [i], the loop leaves [base] followed by a prefix of the
    frame, whether it ends or is refused. *)
Lemma insert_chunks_prefix name (frame base : list R) cs :
  0 < cs ->
  forall m i table,
    table = base ++ firstn (Z.to_nat (Z.of_nat i * cs)) frame ->
    exists k,
      snd (insert_chunks accepts name frame cs (map Z.of_nat (seq i m)) table)
      = base ++ firstn k frame.
Proof.
  intros Hcs. induction m as [|m IH]; intros i table Htable; simpl.
  - eexists. exact Htable.
  - destruct (_ <=? _) eqn:Hbreak; [eexists; exact Htable|].
    destruct (accepts _ _ _); [|eexists; exact Htable].
    apply (IH (S i)). unfold slice.
    rewrite Htable, <- app_assoc, take_take_drop. f_equal.
    apply Z.leb_gt in Hbreak.
    destruct (Z.min_spec ((Z.of_nat i + 1) * cs) (Z.of_nat (length frame)))
      as [[Hlt Hmin]|[Hge Hmin]]; rewrite Hmin in *.
    + f_equal. lia.
    + rewrite !take_ge by lia. reflexivity.
Qed.

(** When the loop ends normally, every batch up to its last index is in. *)
Lemma insert_chunks_complete name (frame base : list R) cs :
  0 < cs ->
  forall m i table,
    table = base ++ firstn (Z.to_nat (Z.of_nat i * cs)) frame ->
    fst (insert_chunks accepts name frame cs (map Z.of_nat (seq i m)) table)
    = Ok tt ->
    snd (insert_chunks accepts name frame cs (map Z.of_nat (seq i m)) table)
    = base ++ firstn (Z.to_nat (Z.of_nat (i + m) * cs)) frame.
Proof.
  intros Hcs. induction m as [|m IH]; intros i table Htable; simpl.
  - intros _. rewrite Nat.add_0_r. exact Htable.
  - destruct (_ <=? _) eqn:Hbreak.
    + intros _. simpl. rewrite Htable. f_equal.
      apply Z.leb_le in Hbreak. rewrite !take_ge by lia. reflexivity.
    + destruct (accepts _ _ _); [|discriminate].
      intros Hok. replace (i + S m)%nat with (S i + m)%nat by lia.
      apply IH; [|exact Hok]. unfold slice.
      rewrite Htable, <- app_assoc, take_take_drop. f_equal.
      apply Z.leb_gt in Hbreak.
      destruct (Z.min_spec ((Z.of_nat i + 1) * cs) (Z.of_nat (length frame)))
        as [[Hlt Hmin]|[Hge Hmin]]; rewrite Hmin in *.
      * f_equal. lia.
      * rewrite !take_ge by lia. reflexivity.
Qed.

Lemma insert_prefix name (frame base : list R) cs :
  exists k, snd (insert accepts name frame cs base) = base ++ firstn k frame.
Proof.
  unfold insert.
  destruct (_ =? 0) eqn:Hrows; [exists O; simpl; rewrite app_nil_r; reflexivity|].
  destruct (cs =? 0) eqn:Hzero; [exists O; simpl; rewrite app_nil_r; reflexivity|].
  apply Z.eqb_neq in Hrows, Hzero.
  destruct (Z.lt_ge_cases 0 cs) as [Hpos|Hneg].
  - unfold range. apply insert_chunks_prefix; [exact Hpos|].
    simpl. rewrite app_nil_r. reflexivity.
  - assert (Hchunks : Z.of_nat (length frame) / cs + 1 <= 0).
    { rewrite <- Z.div_opp_opp by exact Hzero.
      assert (- Z.of_nat (length frame) / - cs < 0); [|lia].
      apply Z.div_lt_upper_bound; lia. }
    unfold range. replace (Z.to_nat _) with O by lia.
    exists O. simpl. rewrite app_nil_r. reflexivity.
Qed.

(** With a positive [chunksize], an [insert] that ends normally has
    appended the whole frame. *)
Lemma insert_complete name (frame base : list R) cs :
  0 < cs ->
  fst (insert accepts name frame cs base) = Ok tt ->
  snd (insert accepts name frame cs base) = base ++ frame.
Proof.
  intros Hcs. unfold insert.
  destruct (_ =? 0) eqn:Hrows.
  - intros _. apply Z.eqb_eq in Hrows.
    destruct frame; [simpl; rewrite app_nil_r; reflexivity | simpl in Hrows; lia].
  - replace (cs =? 0) with false by lia. unfold range. intros Hok.
    rewrite (insert_chunks_complete name frame base cs Hcs _ O base);
      [| simpl; rewrite app_nil_r; reflexivity | exact Hok].
    f_equal. apply take_ge.
    pose proof (Z.mul_succ_div_gt (Z.of_nat (length frame)) cs Hcs).
    pose proof (Z.div_pos (Z.of_nat (length frame)) cs).
    simpl. nia.
Qed.

(** [insert] raises nothing but the refusal of a batch or of a zero
    [chunksize]. *)
Lemma insert_outcome name (frame : list R) cs table :
  fst (insert accepts name frame cs table) = Ok tt
  \/ fst (insert accepts name frame cs table) = Raise DBAPIError
  \/ fst (insert accepts name frame cs table) = Raise (ValueError ChunksizeZero).
Proof.
  unfold insert.
  destruct (_ =? 0); [left; reflexivity|].
  destruct (cs =? 0); [right; right; reflexivity|].
  destruct (insert_chunks_outcome name frame cs
              (range (Z.of_nat (length frame) / cs + 1)) table) as [->| ->];
    [left | right; left]; reflexivity.
Qed.

(** A refused batch is never empty: the loop that fails leaves [base]
    followed by the rows of the batches before it, which are not the whole
    frame. *)
Lemma insert_chunks_failed name (frame base : list R) cs (e : exn) :
  0 < cs ->
  forall m i table,
    table = base ++ firstn (Z.to_nat (Z.of_nat i * cs)) frame ->
    fst (insert_chunks accepts name frame cs (map Z.of_nat (seq i m)) table)
    = Raise e ->
    exists k,
      (k < length frame)%nat
      /\ snd (insert_chunks accepts name frame cs (map Z.of_nat (seq i m)) table)
         = base ++ firstn k frame.
Proof.
  intros Hcs. induction m as [|m IH]; intros i table Htable; simpl.
  - discriminate.
  - destruct (_ <=? _) eqn:Hbreak; [discriminate|].
    apply Z.leb_gt in Hbreak.
    destruct (accepts _ _ _).
    + intros Hfail. apply (IH (S i)); [|exact Hfail]. unfold slice.
      rewrite Htable, <- app_assoc, take_take_drop. f_equal.
      destruct (Z.min_spec ((Z.of_nat i + 1) * cs) (Z.of_nat (length frame)))
        as [[Hlt Hmin]|[Hge Hmin]]; rewrite Hmin in *.
      * f_equal. lia.
      * rewrite !take_ge by lia. reflexivity.
    + intros _. exists (Z.to_nat (Z.of_nat i * cs)). split; [|exact Htable].
      pose proof (Z.le_min_r ((Z.of_nat i + 1) * cs)
                    (Z.of_nat (length frame))).
      lia.
Qed.

(** An [insert] that raises, on a refused batch or on a zero [chunksize],
    has appended a strict prefix of the frame. *)
Lemma insert_failed name (frame base : list R) cs (e : exn) :
  fst (insert accepts name frame cs base) = Raise e ->
  exists k,
    (k < length frame)%nat
    /\ snd (insert accepts name frame cs base) = base ++ firstn k frame.
Proof.
  unfold insert.
  destruct (_ =? 0) eqn:Hrows; [discriminate|].
  apply Z.eqb_neq in Hrows.
  destruct (cs =? 0) eqn:Hzero.
  - intros _. exists O. split; [lia|]. simpl. rewrite app_nil_r. reflexivity.
  - apply Z.eqb_neq in Hzero.
    destruct (Z.lt_ge_cases 0 cs) as [Hpos|Hneg].
    + unfold range. apply insert_chunks_failed; [exact Hpos|].
      simpl. rewrite app_nil_r. reflexivity.
    + assert (Hchunks : Z.of_nat (length frame) / cs + 1 <= 0).
      { rewrite <- Z.div_opp_opp by exact Hzero.
        assert (- Z.of_nat (length frame) / - cs < 0); [|lia].
        apply Z.div_lt_upper_bound; lia. }
      unfold range. replace (Z.to_nat _) with O by lia.
      simpl. discriminate.
Qed.

(** Under [replace] the table ends as it was or as a prefix of the new
    frame, and no other table changes, whatever the outcome. *)
Lemma to_sql_replace_table (frame : list R) name cs
    (db : gmap string (list R)) :
  (snd (to_sql accepts scope frame name replace cs db) !! name = db !! name
   \/ exists k,
       snd (to_sql accepts scope frame name replace cs db) !! name
       = Some (firstn k frame))
  /\ forall other, other <> name ->
       snd (to_sql accepts scope frame name replace cs db) !! other
       = db !! other.
Proof.
  unfold to_sql.
  assert (Hcreate : create_table name replace db = Ok (<[name := []]> db)).
  { unfold create_table. destruct (db !! name); reflexivity. }
  rewrite Hcreate, lookup_insert_eq. simpl.
  destruct (insert_prefix name frame [] cs) as [k Hk]. simpl in Hk.
  destruct (insert accepts name frame cs []) as [[[]|e] table]; simpl in *;
    subst table.
  - split; [right; exists k; apply lookup_insert_eq|].
    intros other Hne. rewrite !lookup_insert_ne by congruence. reflexivity.
  - destruct scope; simpl.
    + split; [left; reflexivity | reflexivity].
    + split; [right; exists O; apply lookup_insert_eq|].
      intros other Hne. rewrite lookup_insert_ne by congruence. reflexivity.
    + split; [right; exists k; apply lookup_insert_eq|].
      intros other Hne. rewrite !lookup_insert_ne by congruence. reflexivity.
Qed.

(** X2: a load that succeeds with a positive batch size leaves the new rows
    alone under [replace] (and under [fail], on a table that did not exist),
    and the old rows followed by the new under [append]. *)
Lemma load_success_table (df : list R) name url policy batch_size
    (db : gmap string (list R)) :
  0 < batch_size ->
  fst (load_to_database reachable accepts scope df name url policy batch_size db)
  = Ok tt ->
  snd (load_to_database reachable accepts scope df name url policy batch_size db)
    !! name
  = Some (match policy with
          | append => default [] (db !! name) ++ df
          | _ => df
          end).
Proof.
  intros Hbs. unfold load_to_database.
  destruct (reachable url); [|discriminate].
  unfold to_sql, create_table.
  destruct (db !! name) as [rows|] eqn:Hlookup; destruct policy; simpl;
    try discriminate;
    rewrite ?lookup_insert_eq, ?Hlookup; simpl;
    match goal with
    | |- context [insert accepts name df batch_size ?base] =>
        pose proof (insert_complete name df base batch_size Hbs) as Hall;
        destruct (insert accepts name df batch_size base) as [[[]|e] table];
        simpl in *; [|discriminate];
        intros _; rewrite lookup_insert_eq, Hall by reflexivity; reflexivity
    end.
Qed.

(** C8, as the code has it: under the fail-if-exists policy the Loader
    fails with the already-exists error exactly when the target table
    exists, whether or not it holds rows, and then leaves the whole database
    as it was, whatever rows the table holds; so loading into an existing but
    empty table fails too. *)
Theorem load_fail_iff_table_exists (df : list R) name url batch_size
    (db : gmap string (list R)) :
  reachable url = true ->
  (fst (load_to_database reachable accepts scope df name url fail batch_size db)
   = Raise (ValueError (TableExists name))
   <-> exists rows, db !! name = Some rows)
  /\ (forall rows,
         db !! name = Some rows ->
         load_to_database reachable accepts scope df name url fail batch_size
           db
         = (Raise (ValueError (TableExists name)), db)).
Proof.
  intros Hup. unfold load_to_database, to_sql, create_table. rewrite Hup.
  destruct (db !! name) as [rows|] eqn:Hlookup.
  - split; [|reflexivity]. split; [eauto | reflexivity].
  - split; [|discriminate]. split; [|intros [rows Hrows]; discriminate].
    rewrite lookup_insert_eq. simpl.
    pose proof (insert_outcome name df batch_size []) as Hout.
    destruct (insert accepts name df batch_size []) as [[[]|e] table];
      simpl in *; [discriminate|].
    intros He. destruct Hout as [Hout|[Hout|Hout]]; congruence.
Qed.

(** C9, as the code has it: under the replace policy a load need not be
    atomic.
    When it fails (a batch refused mid-load included) the target table is
    left either with its old contents untouched, or without its old rows and
    holding only a strict prefix of the new record set, possibly none of it;
    it never holds a mixture of old and new rows, and the other tables are
    as they were. *)
Theorem load_replace_never_mixes (df : list R) name url batch_size
    (db : gmap string (list R)) (e : exn) :
  fst (load_to_database reachable accepts scope df name url replace batch_size db)
  = Raise e ->
  (snd (load_to_database reachable accepts scope df name url replace batch_size db)
     !! name = db !! name
   \/ exists k,
       (k < length df)%nat
       /\ snd (load_to_database reachable accepts scope df name url replace
                 batch_size db) !! name
          = Some (firstn k df))
  /\ forall other, other <> name ->
       snd (load_to_database reachable accepts scope df name url replace
              batch_size db) !! other
       = db !! other.
Proof.
  intros Hfail. split.
  - revert Hfail. unfold load_to_database.
    destruct (reachable url); [|intros _; left; reflexivity].
    unfold to_sql.
    assert (Hcreate : create_table name replace db = Ok (<[name := []]> db)).
    { unfold create_table. destruct (db !! name); reflexivity. }
    rewrite Hcreate, lookup_insert_eq. simpl.
    pose proof (insert_failed name df [] batch_size) as Hprefix.
    destruct (insert accepts name df batch_size []) as [[[]|e'] table];
      simpl in *; [discriminate|].
    intros _. destruct (Hprefix e' eq_refl) as (k & Hlt & ->).
    destruct scope; simpl.
    + left. reflexivity.
    + right. exists O. split; [lia|]. apply lookup_insert_eq.
    + right. exists k. split; [exact Hlt|]. apply lookup_insert_eq.
  - intros other Hne. unfold load_to_database.
    destruct (reachable url); [|reflexivity].
    destruct (to_sql_replace_table df name batch_size db) as [_ Hothers].
    apply Hothers. exact Hne.
Qed.

End WithDatabase.
End LoaderFacts.

(** ** The Generator: the values of the cells *)

Module GeneratorRanges.
Import Generator.

Section WithLibraries.
Context {G : Type} `{PyRandom G} `{Numeric} `{FileSystem}.

(** What holds of each draw holds of every element of a comprehension. *)
Lemma replicate_Forall {A} (P : A -> Prop) (m : Random.Rand G A) :
  (forall g x g', m g = Ok (x, g') -> P x) ->
  forall n g xs g', Random.replicate n m g = Ok (xs, g') -> List.Forall P xs.
Proof.
  intros Hm. induction n as [|n IH]; simpl; intros g xs g' Hrun.
  - unfold Random.ret in Hrun. injection Hrun as <- _. constructor.
  - unfold Random.bind, Random.ret in Hrun.
    destruct (m g) as [[x g1]|e] eqn:Hx; [|discriminate].
    destruct (Random.replicate n m g1) as [[ys g2]|e] eqn:Hrest; [|discriminate].
    injection Hrun as <- _. constructor; [eapply Hm | eapply IH]; eauto.
Qed.

Lemma randint_range (a b : Z) g x g' :
  Random.randint a b g = Ok (x, g') -> a <= x <= b.
Proof.
  unfold Random.randint, Random.randrange.
  destruct (0 <? b + 1 - a) eqn:Hwidth; [|discriminate].
  pose proof (randbelow_range (b + 1 - a) g) as Hrange.
  destruct (randbelow (b + 1 - a) g) as [r g1]. simpl in Hrange.
  intros Hrun. injection Hrun as <- _. lia.
Qed.

Lemma getitem_In {A} (l : list A) (i : Z) (x : A) :
  getitem l i = Ok x -> In x l.
Proof.
  unfold getitem. destruct (_ && _); [|discriminate].
  destruct (nth_error l _) as [y|] eqn:Hnth; [|discriminate].
  intros Hx. injection Hx as <-. eapply nth_error_In. exact Hnth.
Qed.

Lemma choice_In {A} (l : list A) g x g' :
  Random.choice l g = Ok (x, g') -> In x l.
Proof.
  unfold Random.choice. destruct l as [|a l]; [discriminate|].
  destruct (randbelow _ g) as [i g1].
  destruct (getitem (a :: l) i) as [y|e] eqn:Hy; [|discriminate].
  intros Hrun. injection Hrun as <- _. eapply getitem_In. exact Hy.
Qed.

(** A number drawn by [randint] and then formatted. *)
Lemma formatted_randint {A} (a b : Z) (f : Z -> A) g x g' :
  Random.bind (Random.randint a b) (fun k => Random.ret (f k)) g = Ok (x, g') ->
  exists k, a <= k <= b /\ x = f k.
Proof.
  unfold Random.bind, Random.ret.
  destruct (Random.randint a b g) as [[k g1]|e] eqn:Hk; [|discriminate].
  intros Hrun. injection Hrun as <- _.
  exists k. split; [eapply randint_range; exact Hk | reflexivity].
Qed.

Lemma comprehension_Forall {A} (P : A -> Prop) (m : Random.Rand G A) (n : Z) :
  (forall g x g', m g = Ok (x, g') -> P x) ->
  forall g xs g', Random.comprehension n m g = Ok (xs, g') -> List.Forall P xs.
Proof. intros Hm g xs g'. apply replicate_Forall. exact Hm. Qed.

Lemma list_mul_Forall {A} (x : A) (n : Z) :
  List.Forall (fun y => y = x) (list_mul x n).
Proof.
  apply List.Forall_forall. intros y Hy. eapply repeat_spec. exact Hy.
Qed.

(** One step through a chain of draws that ran to the end: name the drawn
    list and keep the equation of its comprehension. *)
Ltac open_draw Hrun :=
  unfold Random.bind at 1 in Hrun;
  match type of Hrun with
  | match ?c with _ => _ end = _ =>
      let Hdraw := fresh "Hdraw" in
      destruct c as [[? ?]|?] eqn:Hdraw; [|discriminate Hrun]
  end.

(** The values each column of the dict can hold. *)
Lemma build_columns_values (n : Z) g d g' :
  build_columns n g = Ok (d, g') ->
  List.Forall (fun x => exists k, 1 <= k <= n / 10
                                  /\ x = "CUST" +:+ format_0d 6 k)
    (c_customer_id d)
  /\ List.Forall (fun x => exists k, 1 <= k <= 1000
                                     /\ x = "Product_" +:+ str_int k)
       (c_product_name d)
  /\ List.Forall (fun x => In x categories) (c_category d)
  /\ List.Forall (fun x => 1 <= x <= 10) (c_quantity d)
  /\ List.Forall (fun x => In x discounts) (c_discount_percent d)
  /\ List.Forall (fun x => x = 0.08%float) (c_tax_rate d)
  /\ List.Forall (fun x => In x payment_methods) (c_payment_method d)
  /\ List.Forall (fun x => In x statuses) (c_status d)
  /\ List.Forall (fun x => exists k, 0 <= k <= 700
                                     /\ x = strftime (add_days start_date k))
       (c_transaction_date d)
  /\ List.Forall (fun x => In x shipping_countries) (c_shipping_country d)
  /\ List.Forall (fun x => exists k, 1 <= k <= n / 10
                                     /\ x = "customer" +:+ str_int k
                                            +:+ "@example.com")
       (c_customer_email d).
Proof.
  unfold build_columns. intros Hrun.
  do 11 open_draw Hrun.
  unfold Random.ret in Hrun. injection Hrun as <- _.
  cbn [c_customer_id c_product_name c_category c_quantity c_discount_percent
       c_tax_rate c_payment_method c_status c_transaction_date
       c_shipping_country c_customer_email].
  repeat match goal with
         | |- _ /\ _ => split
         | |- List.Forall _ (list_mul _ _) => apply list_mul_Forall
         | Hd : Random.comprehension _ _ _ = Ok (?l, _) |- List.Forall _ ?l =>
             refine (comprehension_Forall _ _ _ _ _ _ _ Hd);
             intros ? ? ?;
             first [ apply formatted_randint | apply randint_range
                   | apply choice_In ]
         end.
Qed.

(** The cells of the rows of a frame that was built. *)
Lemma generate_frame_values (n : Z) g df g' :
  generate_frame n g = Ok (df, g') ->
  List.Forall
    (fun r =>
       1 <= quantity r <= 10
       /\ In (discount_percent r) discounts
       /\ (exists c, category r = Some c /\ In c categories)
       /\ In (status r) statuses
       /\ In (payment_method r) payment_methods
       /\ In (shipping_country r) shipping_countries
       /\ tax_rate r = 0.08%float
       /\ (exists k, 1 <= k <= 1000 /\ product_name r = "Product_" +:+ str_int k)
       /\ (exists k, 0 <= k <= 700
                     /\ transaction_date r
                        = DateStr (strftime (add_days start_date k)))
       /\ (exists k, 1 <= k <= n / 10
                     /\ customer_id r = Some ("CUST" +:+ format_0d 6 k))
       /\ (exists k, 1 <= k <= n / 10
                     /\ customer_email r
                        = "customer" +:+ str_int k +:+ "@example.com")
       /\ derived r = None)
    df.
Proof.
  intros Hrun.
  unfold generate_frame, Random.bind, Random.lift, Random.ret in Hrun.
  destruct (build_columns n g) as [[d g1]|e] eqn:Hcols; [|discriminate].
  destruct (of_columns d) as [rows|e] eqn:Hrows; [|discriminate].
  injection Hrun as <- _.
  apply GeneratorFacts.of_columns_rows in Hrows. subst rows.
  pose proof (GeneratorFacts.build_columns_shape _ _ _ _ Hcols) as [Hids Hlen].
  pose proof (build_columns_values _ _ _ _ Hcols) as Hvals.
  assert (Hn : length (c_transaction_id d) = Z.to_nat n).
  { rewrite Hids, length_map. apply PyFacts.range_length. }
  unfold column_lengths in Hlen.
  repeat match goal with
         | Hl : List.Forall _ (_ :: _) |- _ =>
             let Hhead := fresh "Hlen" in
             inversion Hl as [|? ? Hhead Htail]; subst; clear Hl; rename Htail into Hl
         end.
  destruct Hvals as (Hcid & Hprod & Hcat & Hqty & Hdisc & Htax & Hpay & Hstat
                     & Hdate & Hship & Hmail).
  rewrite List.Forall_nth in Hcid, Hprod, Hcat, Hqty, Hdisc, Htax, Hpay, Hstat,
    Hdate, Hship, Hmail.
  unfold assign_total_amount. rewrite map_map. apply List.Forall_forall.
  intros r Hr. apply in_map_iff in Hr. destruct Hr as (i & <- & Hi).
  apply in_seq in Hi. simpl.
  repeat split.
  - apply Hqty. lia.
  - apply Hqty. lia.
  - apply Hdisc. lia.
  - eexists. split; [reflexivity|]. apply Hcat. lia.
  - apply Hstat. lia.
  - apply Hpay. lia.
  - apply Hship. lia.
  - apply Htax. lia.
  - apply Hprod. lia.
  - destruct (Hdate i ""%string) as (k & Hk & ->); [lia|]. eauto.
  - destruct (Hcid i ""%string) as (k & Hk & ->); [lia|]. eauto.
  - apply Hmail. lia.
Qed.

(** X3: every row of every dataset the Generator returns has a quantity from
    1 to 10, a discount among 0, 5, 10, 15 and 20, a category, status,
    payment method and country of the fixed lists, the tax rate 0.08, a
    product number from 1 to 1000, a date string at most 700 days after
    2023-01-01, a customer id and an e-mail numbered from 1 to
    [num_rows // 10], and no derived column. *)
Theorem generated_rows_in_range (n : Z) fmt path files g df files' g' :
  generate_sample_data n fmt path files g = Ok (df, files', g') ->
  List.Forall
    (fun r =>
       1 <= quantity r <= 10
       /\ In (discount_percent r) discounts
       /\ (exists c, category r = Some c /\ In c categories)
       /\ In (status r) statuses
       /\ In (payment_method r) payment_methods
       /\ In (shipping_country r) shipping_countries
       /\ tax_rate r = 0.08%float
       /\ (exists k, 1 <= k <= 1000 /\ product_name r = "Product_" +:+ str_int k)
       /\ (exists k, 0 <= k <= 700
                     /\ transaction_date r
                        = DateStr (strftime (add_days start_date k)))
       /\ (exists k, 1 <= k <= n / 10
                     /\ customer_id r = Some ("CUST" +:+ format_0d 6 k))
       /\ (exists k, 1 <= k <= n / 10
                     /\ customer_email r
                        = "customer" +:+ str_int k +:+ "@example.com")
       /\ derived r = None)
    df.
Proof.
  intros Hrun. apply GeneratorFacts.generate_sample_data_frame in Hrun.
  exact (generate_frame_values _ _ _ _ Hrun).
Qed.

End WithLibraries.
End GeneratorRanges.

(** ** The test datasets *)

Module DatasetsFacts.
Import Generator Datasets.

Lemma path_join_inj (base a b : string) :
  path_join base a = path_join base b -> a = b.
Proof.
  unfold path_join.
  destruct (String.eqb base "."); [auto|].
  destruct (String.eqb base "/"); intros Heq.
  - eapply PyFacts.append_inv_head. exact Heq.
  - apply PyFacts.append_inv_head in Heq.
    eapply (PyFacts.append_inv_head "/"). exact Heq.
Qed.

Lemma append_nonempty_r (p s : string) : s <> ""%string -> p +:+ s <> ""%string.
Proof.
  intros Hs. destruct p as [|a p]; [exact Hs|].
  rewrite PyFacts.append_cons. discriminate.
Qed.

Lemma path_join_nonempty (base name : string) :
  name <> ""%string -> path_join base name <> ""%string.
Proof.
  intros Hname. unfold path_join.
  destruct (String.eqb base "."); [exact Hname|].
  destruct (String.eqb base "/"); [discriminate|].
  apply append_nonempty_r. discriminate.
Qed.

Section WithLibraries.
Context {G : Type} `{PyRandom G} `{Numeric} `{FileSystem}.

(** From ten rows on the frame is always built. *)
Lemma generate_frame_ok (n : Z) g :
  10 <= n ->
  exists df g',
    generate_frame n g = Ok (df, g')
    /\ Z.of_nat (length df) = n
    /\ List.NoDup (map transaction_id df).
Proof.
  intros Hn.
  assert (Hframe : exists df g', generate_frame n g = Ok (df, g')).
  { unfold generate_frame, Random.bind, Random.lift, Random.ret.
    destruct (GeneratorFacts.build_columns_ok n Hn g) as (d & g1 & Hcols).
    rewrite Hcols.
    apply GeneratorFacts.build_columns_shape in Hcols.
    destruct Hcols as [_ Hlen].
    rewrite (GeneratorFacts.of_columns_ok d _ Hlen). eexists _, _. reflexivity. }
  destruct Hframe as (df & g' & Hframe). exists df, g'.
  split; [exact Hframe|].
  apply GeneratorFacts.generate_frame_shape in Hframe.
  destruct Hframe as (Hlen & Hids & _). split; [lia|].
  rewrite Hids. apply GeneratorFacts.sequential_ids_NoDup.
Qed.

(** With a path the file system takes and one of the three formats, a call
    for ten rows or more writes the frame it returns at the path. *)
Lemma generate_sample_data_saved (n : Z) fmt p files g :
  10 <= n -> p <> ""%string ->
  mkdir_parents p = true -> can_write p = true ->
  (forall s, fmt <> other_format s) ->
  exists df g',
    generate_sample_data n fmt (Some p) files g
    = Ok (df, <[p := (fmt, df)]> files, g')
    /\ Z.of_nat (length df) = n
    /\ List.NoDup (map transaction_id df).
Proof.
  intros Hn Hp Hdir Hfile Hfmt.
  destruct (generate_frame_ok n g Hn) as (df & g' & Hframe & Hlen & Hnd).
  exists df, g'. split; [|split; assumption].
  unfold generate_sample_data. rewrite Hframe.
  apply String.eqb_neq in Hp. rewrite Hp, Hdir, Hfile. simpl.
  destruct fmt; try reflexivity. exfalso. eapply Hfmt. reflexivity.
Qed.

(** One turn of the loop writes its three files over what was there. *)
Lemma generate_size_ok (base size : string) (n : Z) files g :
  10 <= n ->
  (forall p, mkdir_parents p = true) -> (forall p, can_write p = true) ->
  exists d1 d2 d3 g',
    generate_size base (size, n) files g
    = Ok (<[path_join base ("transactions_" +:+ size +:+ ".parquet")
              := (parquet, d3)]>
            (<[path_join base ("transactions_" +:+ size +:+ ".json")
                 := (json, d2)]>
               (<[path_join base ("transactions_" +:+ size +:+ ".csv")
                    := (csv, d1)]> files)),
          g')
    /\ List.Forall
         (fun d => Z.of_nat (length d) = n
                   /\ List.NoDup (map transaction_id d))
         [d1; d2; d3].
Proof.
  intros Hn Hdir Hfile. unfold generate_size.
  destruct (generate_sample_data_saved n csv
              (path_join base ("transactions_" +:+ size +:+ ".csv")) files g)
    as (d1 & g1 & -> & Hd1); auto; try discriminate.
  { apply path_join_nonempty. discriminate. }
  destruct (generate_sample_data_saved n json
              (path_join base ("transactions_" +:+ size +:+ ".json"))
              (<[path_join base ("transactions_" +:+ size +:+ ".csv")
                   := (csv, d1)]> files) g1)
    as (d2 & g2 & -> & Hd2); auto; try discriminate.
  { apply path_join_nonempty. discriminate. }
  destruct (generate_sample_data_saved n parquet
              (path_join base ("transactions_" +:+ size +:+ ".parquet"))
              (<[path_join base ("transactions_" +:+ size +:+ ".json")
                   := (json, d2)]>
                 (<[path_join base ("transactions_" +:+ size +:+ ".csv")
                      := (csv, d1)]> files)) g2)
    as (d3 & g3 & -> & Hd3); auto; try discriminate.
  { apply path_join_nonempty. discriminate. }
  exists d1, d2, d3, g3. split; [reflexivity|]. repeat constructor; tauto.
Qed.

(** Two of the file names differ as soon as their sizes or extensions do. *)
Ltac other_path :=
  let Heq := fresh "Heq" in
  intros Heq; apply path_join_inj in Heq; vm_compute in Heq; discriminate Heq.

(** The nine files of a run on a file system that takes every path. *)
Lemma create_test_datasets_ok (base : string) files g :
  (forall p, mkdir_parents p = true) -> (forall p, can_write p = true) ->
  exists files' g',
    create_test_datasets base files g = Ok (files', g')
    /\ (forall size n fmt ext,
           In (size, n) datasets ->
           In (fmt, ext) [(csv, ".csv"); (json, ".json"); (parquet, ".parquet")]%string ->
           exists df,
             files' !! path_join base ("transactions_" +:+ size +:+ ext)
             = Some (fmt, df)
             /\ Z.of_nat (length df) = n
             /\ List.NoDup (map transaction_id df))
    /\ (forall p,
           (forall size ext,
               In size (map fst datasets) ->
               In ext [".csv"; ".json"; ".parquet"]%string ->
               p <> path_join base ("transactions_" +:+ size +:+ ext)) ->
           files' !! p = files !! p).
Proof.
  intros Hdir Hfile. unfold create_test_datasets, datasets, for_each_size.
  destruct (generate_size_ok base "small" 10000 files g)
    as (s1 & s2 & s3 & g1 & -> & Hs); auto; [lia|].
  match goal with |- context [generate_size base _ ?f g1] =>
    destruct (generate_size_ok base "medium" 1000000 f g1)
      as (m1 & m2 & m3 & g2 & -> & Hm); auto; [lia|] end.
  match goal with |- context [generate_size base _ ?f g2] =>
    destruct (generate_size_ok base "large" 10000000 f g2)
      as (l1 & l2 & l3 & g3 & -> & Hl); auto; [lia|] end.
  eexists _, g3. split; [reflexivity|].
  rewrite !List.Forall_cons_iff in Hs, Hm, Hl.
  split.
  - intros size n fmt ext Hsize Hfmt. simpl in Hsize, Hfmt.
    destruct Hsize as [Hsize|[Hsize|[Hsize|[]]]]; injection Hsize as <- <-;
      destruct Hfmt as [Hfmt|[Hfmt|[Hfmt|[]]]]; injection Hfmt as <- <-;
      eexists;
      (split; [repeat (rewrite lookup_insert_ne by other_path);
               apply lookup_insert_eq | tauto]).
  - intros p Hp.
    repeat (rewrite lookup_insert_ne;
            [| intros Heq; symmetry in Heq; revert Heq; apply Hp; simpl; tauto]).
    reflexivity.
Qed.

(** X4: on a file system that takes every path, [create_test_datasets]
    always succeeds (ten rows at least are asked for each time, so no draw
    can fail) and leaves nine files under the base path: for each of the
    sizes small (10000 rows), medium (1000000) and large (10000000), a CSV,
    a JSON and a Parquet file, each holding a frame of that many rows with
    pairwise distinct keys; no other file is touched. *)
Theorem create_test_datasets_files (base : string) files g :
  (forall p, mkdir_parents p = true) -> (forall p, can_write p = true) ->
  exists files' g',
    create_test_datasets base files g = Ok (files', g')
    /\ (forall size n fmt ext,
           In (size, n) datasets ->
           In (fmt, ext) [(csv, ".csv"); (json, ".json"); (parquet, ".parquet")]%string ->
           exists df,
             files' !! path_join base ("transactions_" +:+ size +:+ ext)
             = Some (fmt, df)
             /\ Z.of_nat (length df) = n
             /\ List.NoDup (map transaction_id df))
    /\ (forall p,
           (forall size ext,
               In size (map fst datasets) ->
               In ext [".csv"; ".json"; ".parquet"]%string ->
               p <> path_join base ("transactions_" +:+ size +:+ ext)) ->
           files' !! p = files !! p).
Proof. apply create_test_datasets_ok. Qed.

End WithLibraries.
End DatasetsFacts.

(** ** The Transformer: which rows survive, when it fails, the calendar *)

Module TransformerMore.
Import Etl.

(** The rows [drop_duplicates] keeps are the first ones of their key. *)
Lemma drop_duplicates_from_first (df : DataFrame) :
  forall seen r,
    In r (drop_duplicates_from seen df)
    <-> exists i,
          nth_error df i = Some r
          /\ (transaction_id r ∉ seen)
          /\ forall j r', (j < i)%nat -> nth_error df j = Some r' ->
                          transaction_id r' <> transaction_id r.
Proof.
  induction df as [|r0 df IH]; intros seen r; simpl.
  - split; [contradiction|]. intros (i & Hi & _). destruct i; discriminate.
  - destruct (bool_decide (transaction_id r0 ∈ seen)) eqn:Hseen.
    + apply bool_decide_eq_true in Hseen. rewrite IH. split.
      * intros (i & Hi & Hfresh & Hfirst). exists (S i).
        split; [exact Hi|]. split; [exact Hfresh|].
        intros [|j] r' Hj Hr'; simpl in Hr'.
        -- injection Hr' as <-. intros Heq. apply Hfresh. rewrite <- Heq.
           exact Hseen.
        -- eapply Hfirst; [|exact Hr']. lia.
      * intros ([|i] & Hi & Hfresh & Hfirst); simpl in Hi.
        -- injection Hi as <-. contradiction.
        -- exists i. split; [exact Hi|]. split; [exact Hfresh|].
           intros j r' Hj Hr'. apply (Hfirst (S j)); [lia | exact Hr'].
    + apply bool_decide_eq_false in Hseen. simpl. rewrite IH. split.
      * intros [<-|(i & Hi & Hfresh & Hfirst)].
        -- exists O. split; [reflexivity|]. split; [exact Hseen|].
           intros j r' Hj. lia.
        -- exists (S i). split; [exact Hi|].
           split; [intros Hin; apply Hfresh; right; exact Hin|].
           intros [|j] r' Hj Hr'; simpl in Hr'.
           ++ injection Hr' as <-. intros Heq. apply Hfresh. rewrite Heq. left.
           ++ eapply Hfirst; [|exact Hr']. lia.
      * intros ([|i] & Hi & Hfresh & Hfirst); simpl in Hi.
        -- left. injection Hi as <-. reflexivity.
        -- right. exists i. split; [exact Hi|]. split.
           ++ intros Hin. apply elem_of_cons in Hin. destruct Hin as [Heq|Hin].
              ** apply (Hfirst O r0); [lia | reflexivity | symmetry; exact Heq].
              ** exact (Hfresh Hin).
           ++ intros j r' Hj Hr'. apply (Hfirst (S j)); [lia | exact Hr'].
Qed.

(** The cleaned frame: the valid rows that are the first of their key. *)
Lemma clean_first (df : DataFrame) (r : Row) :
  In r (clean df)
  <-> exists i,
        nth_error df i = Some r
        /\ notna r = true /\ positive_amount r = true
        /\ positive_quantity r = true
        /\ forall j r', (j < i)%nat -> nth_error df j = Some r' ->
                        transaction_id r' <> transaction_id r.
Proof.
  unfold clean, dropna, drop_duplicates.
  rewrite !filter_In, drop_duplicates_from_first. split.
  - intros [[[(i & Hi & _ & Hfirst) Hna] Ha] Hq]. exists i. tauto.
  - intros (i & Hi & Hna & Ha & Hq & Hfirst).
    repeat split; try assumption.
    exists i. split; [exact Hi|]. split; [apply not_elem_of_nil | exact Hfirst].
Qed.

Lemma filter_sublist {A} (p : A -> bool) (l : list A) :
  sublist (List.filter p l) l.
Proof.
  induction l as [|x l IH]; simpl; [constructor|].
  destruct (p x); constructor; exact IH.
Qed.

Lemma drop_duplicates_from_sublist (df : DataFrame) :
  forall seen, sublist (drop_duplicates_from seen df) df.
Proof.
  induction df as [|r0 df IH]; simpl; intros seen; [constructor|].
  destruct (bool_decide _); constructor; apply IH.
Qed.

Lemma map_sublist {A B} (f : A -> B) (l1 l2 : list A) :
  sublist l1 l2 -> sublist (map f l1) (map f l2).
Proof. induction 1; simpl; constructor; assumption. Qed.

Lemma clean_sublist (df : DataFrame) : sublist (clean df) df.
Proof.
  unfold clean, dropna, drop_duplicates.
  etransitivity; [apply filter_sublist|].
  etransitivity; [apply filter_sublist|].
  etransitivity; [apply filter_sublist|].
  apply drop_duplicates_from_sublist.
Qed.


Section WithLibraries.
Context `{Numeric} `{DateParser}.

(** X5: a key is in the Transformer's output exactly when the first input
    row that carries it has no missing key, customer or amount and a
    positive amount and quantity: a later duplicate never stands in for a
    first occurrence that is dropped. The surviving keys come in the order
    of the input. *)
Theorem transform_data_survivors (df out : DataFrame) :
  transform_data df = Ok out ->
  (forall k,
      In k (map transaction_id out)
      <-> exists i r,
            nth_error df i = Some r
            /\ transaction_id r = k
            /\ notna r = true /\ positive_amount r = true
            /\ positive_quantity r = true
            /\ forall j r', (j < i)%nat -> nth_error df j = Some r' ->
                            transaction_id r' <> k)
  /\ sublist (map transaction_id out) (map transaction_id df).
Proof.
  intros Hrun. destruct (EtlFacts.transform_data_ids _ _ Hrun) as [-> _].
  split.
  - intros k. rewrite in_map_iff. split.
    + intros (r & <- & Hr). apply clean_first in Hr.
      destruct Hr as (i & Hi). exists i, r. tauto.
    + intros (i & r & Hi & <- & Hrest). exists r. split; [reflexivity|].
      apply clean_first. exists i. tauto.
  - apply map_sublist, clean_sublist.
Qed.





End WithLibraries.
End TransformerMore.

(** ** The Aggregator: totals and order *)

Module AggregatorMore.
Import Etl.

Lemma insert_key_HdRel (a k : string) (l : list string) :
  String.leb a k = true ->
  HdRel (fun x y => String.leb x y = true) a l ->
  HdRel (fun x y => String.leb x y = true) a (insert_key k l).
Proof.
  intros Hak Hhd. destruct l as [|h t]; simpl; [constructor; exact Hak|].
  destruct (String.leb k h); constructor; [exact Hak|].
  inversion Hhd; assumption.
Qed.

Lemma insert_key_sorted (k : string) (l : list string) :
  Sorted (fun x y => String.leb x y = true) l ->
  Sorted (fun x y => String.leb x y = true) (insert_key k l).
Proof.
  induction l as [|h t IH]; simpl; intros Hs; [repeat constructor|].
  destruct (String.leb k h) eqn:Hkh.
  - constructor; [exact Hs | constructor; exact Hkh].
  - inversion Hs as [|? ? Ht Hhd]; subst. constructor; [apply IH; exact Ht|].
    apply insert_key_HdRel; [|exact Hhd].
    destruct (String.leb_total h k) as [Hle|Hle]; [exact Hle | congruence].
Qed.

Lemma sort_keys_sorted (l : list string) :
  Sorted (fun x y => String.leb x y = true) (sort_keys l).
Proof.
  induction l as [|k l IH]; simpl; [constructor|].
  apply insert_key_sorted. exact IH.
Qed.

Lemma present_categories_length (df : DataFrame) :
  forall seen, (length (present_categories seen df) <= length df)%nat.
Proof.
  induction df as [|r df IH]; simpl; intros seen; [lia|].
  destruct (category r) as [c|]; [destruct (bool_decide _)|]; simpl;
    try (specialize (IH seen); lia).
  specialize (IH (c :: seen)). lia.
Qed.

(** Sums over the group keys. *)
Lemma sum_map_add {A} (f g : A -> Z) (l : list A) :
  fold_right Z.add 0 (map (fun x => f x + g x) l)
  = fold_right Z.add 0 (map f l) + fold_right Z.add 0 (map g l).
Proof. induction l as [|x l IH]; simpl; lia. Qed.

Lemma sum_map_zero {A} (l : list A) :
  fold_right Z.add 0 (map (fun _ => 0) l) = 0.
Proof. induction l as [|x l IH]; simpl; lia. Qed.

(** Among distinct keys, a row counts towards the key of its category and
    no other. *)
Lemma sum_indicator (keys : list string) (o : option string) (v : Z) :
  List.NoDup keys ->
  fold_right Z.add 0
    (map (fun c => if bool_decide (o = Some c) then v else 0) keys)
  = match o with
    | Some c => if bool_decide (c ∈ keys) then v else 0
    | None => 0
    end.
Proof.
  induction 1 as [|k keys Hk Hnd IH]; simpl.
  - destruct o; reflexivity.
  - rewrite IH. destruct o as [c|]; [|reflexivity].
    destruct (bool_decide (Some c = Some k)) eqn:Heq.
    + apply bool_decide_eq_true in Heq. injection Heq as ->.
      rewrite (bool_decide_eq_true_2 (k ∈ k :: keys)) by left.
      rewrite bool_decide_eq_false_2; [lia|].
      rewrite list_elem_of_In. exact Hk.
    + apply bool_decide_eq_false in Heq.
      destruct (bool_decide (c ∈ keys)) eqn:Hin.
      * apply bool_decide_eq_true in Hin.
        rewrite (bool_decide_eq_true_2 (c ∈ k :: keys)) by (right; exact Hin).
        lia.
      * apply bool_decide_eq_false in Hin.
        rewrite bool_decide_eq_false_2; [lia|].
        intros Hc. apply elem_of_cons in Hc. destruct Hc as [->|Hc]; auto.
Qed.

Lemma agg_count_group_cons (r : Row) (df : DataFrame) (c : string) :
  agg_count (group (r :: df) c)
  = agg_count (group df c)
    + (if bool_decide (category r = Some c)
       then (if is_some (transaction_id r) then 1 else 0) else 0).
Proof.
  unfold agg_count, group. simpl.
  destruct (bool_decide (category r = Some c)); simpl; [|lia].
  destruct (is_some (transaction_id r)); simpl; lia.
Qed.

(** Over distinct keys that cover the categories of the frame, the counts of
    the groups add up to the rows that have a category and a key. *)
Lemma sum_group_counts (keys : list string) (df : DataFrame) :
  List.NoDup keys ->
  (forall r c, In r df -> category r = Some c -> In c keys) ->
  fold_right Z.add 0 (map (fun c => agg_count (group df c)) keys)
  = Z.of_nat
      (length (List.filter
                 (fun r => is_some (category r) && is_some (transaction_id r))
                 df)).
Proof.
  intros Hnd. induction df as [|r df IH]; intros Hcover.
  - simpl. apply sum_map_zero.
  - rewrite (map_ext _ _ (agg_count_group_cons r df)).
    rewrite sum_map_add, IH by (intros r0 c Hr0; apply Hcover; right; exact Hr0).
    rewrite (sum_indicator keys (category r) _ Hnd). simpl.
    destruct (category r) as [c|] eqn:Hc; simpl; [|lia].
    rewrite bool_decide_eq_true_2.
    + destruct (is_some (transaction_id r)); simpl; lia.
    + apply list_elem_of_In. eapply Hcover; [left; reflexivity | exact Hc].
Qed.

Section WithLibraries.
Context `{Numeric} `{DateParser}.

Lemma create_summary_counts (df : DataFrame) :
  map total_transactions (create_summary df)
  = map (fun c => agg_count (group df c)) (group_keys df).
Proof. unfold create_summary. rewrite !map_map. reflexivity. Qed.

(** X8: whatever the frame, the [total_transactions] of the summary rows add
    up to the number of rows that have a category and a transaction id: every
    such row is counted in exactly one group, and rows without a category
    are in none. *)
Theorem summary_counts_add_up (df : DataFrame) :
  fold_right Z.add 0 (map total_transactions (create_summary df))
  = Z.of_nat
      (length (List.filter
                 (fun r => is_some (category r) && is_some (transaction_id r))
                 df)).
Proof.
  rewrite create_summary_counts.
  destruct (AggregatorFacts.group_keys_spec df) as [Hnd Hkeys].
  apply sum_group_counts; [exact Hnd|].
  intros r c Hr Hc. apply Hkeys. eauto.
Qed.

Lemma create_summary_length (df : DataFrame) :
  (length (create_summary df) <= length df)%nat.
Proof.
  rewrite <- (length_map s_category),
    AggregatorFacts.create_summary_categories.
  unfold group_keys.
  rewrite (Permutation_length (AggregatorFacts.sort_keys_perm _)).
  apply present_categories_length.
Qed.

(** X9: the summary rows come in ascending order of category, and there are
    no more of them than rows in the frame. *)
Theorem summary_sorted_by_category (df : DataFrame) :
  Sorted (fun a b => String.leb a b = true)
    (map s_category (create_summary df))
  /\ (length (create_summary df) <= length df)%nat.
Proof.
  split; [|apply create_summary_length].
  rewrite AggregatorFacts.create_summary_categories.
  unfold group_keys. apply sort_keys_sorted.
Qed.

End WithLibraries.

Section Generated.
Context {G : Type} `{PyRandom G} `{Numeric} `{DateParser} `{FileSystem}.

(** X10: the summary of a dataset that was generated and then transformed
    has at most six rows, each for one of the six categories the Generator
    draws from. *)
Theorem generated_summary_categories (n : Z) fmt path files g raw files' g'
    (df : DataFrame) :
  Generator.generate_sample_data n fmt path files g = Ok (raw, files', g') ->
  transform_data raw = Ok df ->
  (length (create_summary df) <= 6)%nat
  /\ List.Forall (fun s => In (s_category s) Generator.categories)
       (create_summary df).
Proof.
  intros Hgen Hrun.
  apply GeneratorFacts.generate_sample_data_frame in Hgen.
  pose proof (GeneratorRanges.generate_frame_values _ _ _ _ Hgen) as Hraw.
  rewrite List.Forall_forall in Hraw.
  destruct (AggregatorFacts.group_keys_spec df) as [Hnd Hkeys].
  assert (Hincl : incl (group_keys df) Generator.categories).
  { intros c Hc. apply Hkeys in Hc. destruct Hc as (r & Hr & Hcat).
    destruct (EtlFacts.transform_data_row _ _ _ Hrun Hr) as ([t r0] & -> & Hr0).
    simpl in Hr0, Hcat.
    destruct (EtlFacts.clean_spec raw) as (_ & _ & Hclean).
    rewrite List.Forall_forall in Hclean.
    destruct (Hclean _ Hr0) as (Hin & _).
    destruct (Hraw _ Hin) as (_ & _ & (c0 & Hc0 & Hmem) & _).
    congruence. }
  split.
  - rewrite <- (length_map s_category),
      AggregatorFacts.create_summary_categories.
    apply (NoDup_incl_length Hnd Hincl).
  - apply List.Forall_forall. intros s Hs. apply Hincl.
    rewrite <- AggregatorFacts.create_summary_categories.
    apply in_map. exact Hs.
Qed.

End Generated.
End AggregatorMore.

(** ** The whole pipeline *)

Module PipelineFacts.
Import Generator Etl Loader Pipeline.

Section WithDatabase.
Context {R : Type}.
Variable reachable : string -> bool.
Variable accepts : string -> list R -> list R -> bool.
Variable scope : tx_scope.

(** Under [replace] with a positive batch size, whether a load succeeds does
    not depend on the database it starts from, and when it does the table
    holds the frame and nothing else changed. *)
Lemma load_replace_cases (df : list R) name url batch_size :
  0 < batch_size ->
  (forall db,
      load_to_database reachable accepts scope df name url replace batch_size db
      = (Ok tt, <[name := df]> db))
  \/ (exists e, forall db,
         fst (load_to_database reachable accepts scope df name url replace
                batch_size db) = Raise e).
Proof.
  intros Hbs. unfold load_to_database.
  destruct (reachable url); [|right; exists DBAPIError; reflexivity].
  pose proof (LoaderFacts.insert_complete accepts name df [] batch_size Hbs)
    as Hall.
  destruct (insert accepts name df batch_size []) as [[[]|e] table] eqn:Hins;
    simpl in Hall.
  - left. intros db. unfold to_sql.
    replace (create_table name replace db) with (Ok (<[name := []]> db))
      by (unfold create_table; destruct (db !! name); reflexivity).
    rewrite lookup_insert_eq. simpl. rewrite Hins, Hall by reflexivity.
    rewrite insert_insert_eq. reflexivity.
  - right. exists e. intros db. unfold to_sql.
    replace (create_table name replace db) with (Ok (<[name := []]> db))
      by (unfold create_table; destruct (db !! name); reflexivity).
    rewrite lookup_insert_eq. simpl. rewrite Hins. reflexivity.
Qed.

(** A load under [replace] changes no table but its own, whatever comes of
    it. *)
Lemma load_replace_others (df : list R) name url batch_size
    (db : gmap string (list R)) other :
  other <> name ->
  snd (load_to_database reachable accepts scope df name url replace
         batch_size db) !! other
  = db !! other.
Proof.
  intros Hne. unfold load_to_database. destruct (reachable url); [|reflexivity].
  apply LoaderFacts.to_sql_replace_table. exact Hne.
Qed.

End WithDatabase.
Section WithLibraries.
Context `{Numeric} `{DateParser} `{FrameReader} `{SeriesOps}.
Variable reachable : string -> bool.
Variable accepts : string -> list table_row -> list table_row -> bool.
Variable scope : tx_scope.

(** The two loads of a run, taken one after the other: both done, or the
    first refused, or the second refused after the first was done. *)
Lemma run_loads (url : string) (transformed : DataFrame)
    (db : gmap string (list table_row)) :
  let load1 :=
    load_to_database reachable accepts scope (map TransactionRow transformed)
      "transactions" url replace 10000 db in
  let load2 :=
    load_to_database reachable accepts scope
      (map SummaryRecord (create_summary transformed)) "transaction_summary"
      url replace 10000 (snd load1) in
  (load1 = (Ok tt, <["transactions" := map TransactionRow transformed]> db)
   /\ (load2
       = (Ok tt,
          <["transaction_summary"
              := map SummaryRecord (create_summary transformed)]>
            (<["transactions" := map TransactionRow transformed]> db))
       \/ exists e, fst load2 = Raise e))
  \/ exists e, fst load1 = Raise e.
Proof.
  intros load1 load2. subst load1 load2.
  destruct (load_replace_cases reachable accepts scope
              (map TransactionRow transformed) "transactions" url 10000)
    as [Hok1|[e He]]; [lia| |right; exists e; apply He].
  left. split; [apply Hok1|]. rewrite Hok1. simpl.
  destruct (load_replace_cases reachable accepts scope
              (map SummaryRecord (create_summary transformed))
              "transaction_summary" url 10000)
    as [Hok2|[e He]]; [lia| |right; exists e; apply He].
  left. apply Hok2.
Qed.

(** X11: when [run_etl_pipeline] returns, the file was read, the frame
    transformed, and the database is the one it started from with
    [transactions] holding exactly the transformed rows and
    [transaction_summary] exactly their summary; the metrics count these, and
    categories <= rows processed <= rows read. *)
Theorem run_etl_pipeline_success input url fmt files db m db' :
  run_etl_pipeline reachable accepts scope input url fmt files db
  = (Returned m, db') ->
  exists raw transformed,
    extract_data input fmt files = Returned raw
    /\ transform_data raw = Ok transformed
    /\ db' = <["transaction_summary"
                 := map SummaryRecord (create_summary transformed)]>
               (<["transactions" := map TransactionRow transformed]> db)
    /\ rows_processed m = Z.of_nat (length transformed)
    /\ categories m = Z.of_nat (length (create_summary transformed))
    /\ categories m <= rows_processed m <= Z.of_nat (length raw).
Proof.
  unfold run_etl_pipeline.
  destruct (extract_data input fmt files) as [raw|e]; [|discriminate].
  destruct (transform_data raw) as [transformed|e] eqn:Hrun; [|discriminate].
  pose proof (run_loads url transformed db) as Hloads. simpl in Hloads.
  destruct Hloads as [[Hload1 Hload2]|[e He]].
  - rewrite Hload1 in *. simpl in Hload2.
    destruct Hload2 as [Hload2|[e He]].
    + rewrite Hload2. intros Hret. injection Hret as <- <-.
      exists raw, transformed. simpl.
      split; [reflexivity|]. split; [exact Hrun|].
      do 3 (split; [reflexivity|]).
      pose proof (AggregatorMore.create_summary_length transformed).
      destruct (EtlFacts.transform_data_ids _ _ Hrun) as [_ Hsame].
      destruct (EtlFacts.clean_spec raw) as (Hlen & _). lia.
    + destruct (load_to_database _ _ _ (map SummaryRecord _) _ _ _ _ _)
        as [[[]|e0] db2]; simpl in He; [discriminate He | discriminate].
  - destruct (load_to_database _ _ _ (map TransactionRow _) _ _ _ _ _)
      as [[[]|e0] db1]; simpl in He; [discriminate He | discriminate].
Qed.

(** X12: when [run_etl_pipeline] fails, no table other than [transactions]
    and [transaction_summary] has changed, and [transaction_summary] is as
    it was unless the file was read, the frame transformed and
    [transactions] already replaced by all the transformed rows: the two
    loads are not undone together. *)
Theorem run_etl_pipeline_failure input url fmt files db e db' :
  run_etl_pipeline reachable accepts scope input url fmt files db
  = (Failed e, db') ->
  (forall other, other <> "transactions"%string ->
                 other <> "transaction_summary"%string ->
                 db' !! other = db !! other)
  /\ (db' !! "transaction_summary" = db !! "transaction_summary"
      \/ exists raw transformed,
           extract_data input fmt files = Returned raw
           /\ transform_data raw = Ok transformed
           /\ db' !! "transactions"
              = Some (map TransactionRow transformed)).
Proof.
  unfold run_etl_pipeline.
  destruct (extract_data input fmt files) as [raw|e0];
    [|intros Hret; injection Hret as <- <-; auto].
  destruct (transform_data raw) as [transformed|e0] eqn:Hrun;
    [|intros Hret; injection Hret as <- <-; auto].
  pose proof (run_loads url transformed db) as Hloads. simpl in Hloads.
  pose proof (load_replace_others reachable accepts scope
                (map TransactionRow transformed) "transactions" url 10000 db)
    as Hothers1.
  destruct Hloads as [[Hload1 Hload2]|[e1 He]].
  - rewrite Hload1 in *. simpl in Hload2, Hothers1.
    pose proof (load_replace_others reachable accepts scope
                  (map SummaryRecord (create_summary transformed))
                  "transaction_summary" url 10000
                  (<["transactions" := map TransactionRow transformed]> db))
      as Hothers2.
    destruct Hload2 as [Hload2|[e2 He]]; [rewrite Hload2; discriminate|].
    destruct (load_to_database _ _ _ (map SummaryRecord _) _ _ _ _ _)
      as [[[]|e0] db2]; simpl in He, Hothers2; [discriminate He|].
    intros Hret. injection Hret as <- <-. split.
    + intros other Hn1 Hn2. rewrite Hothers2 by exact Hn2.
      apply lookup_insert_ne. congruence.
    + right. exists raw, transformed.
      split; [reflexivity|]. split; [exact Hrun|].
      rewrite Hothers2 by discriminate. apply lookup_insert_eq.
  - destruct (load_to_database _ _ _ (map TransactionRow _) _ _ _ _ _)
      as [[[]|e0] db1]; simpl in He, Hothers1; [discriminate He|].
    intros Hret. injection Hret as <- <-. split.
    + intros other Hn1 Hn2. apply Hothers1. exact Hn1.
    + left. apply Hothers1. discriminate.
Qed.

(** X13: a run that returns does so whatever the database held before, with
    the same metrics and the same two tables; run again on the database it
    left, it returns the same metrics and leaves that database as it is. *)
Theorem run_etl_pipeline_rerun input url fmt files db m db' :
  run_etl_pipeline reachable accepts scope input url fmt files db
  = (Returned m, db') ->
  (forall db0,
      exists db0',
        run_etl_pipeline reachable accepts scope input url fmt files db0
        = (Returned m, db0')
        /\ db0' !! "transactions" = db' !! "transactions"
        /\ db0' !! "transaction_summary" = db' !! "transaction_summary")
  /\ run_etl_pipeline reachable accepts scope input url fmt files db'
     = (Returned m, db').
Proof.
  intros Hret.
  assert (Hany : forall db0,
    exists transformed,
      db' = <["transaction_summary"
                := map SummaryRecord (create_summary transformed)]>
              (<["transactions" := map TransactionRow transformed]> db)
      /\ run_etl_pipeline reachable accepts scope input url fmt files db0
         = (Returned m,
            <["transaction_summary"
                := map SummaryRecord (create_summary transformed)]>
              (<["transactions" := map TransactionRow transformed]> db0))).
  { intros db0. revert Hret. unfold run_etl_pipeline.
    destruct (extract_data input fmt files) as [raw|e]; [|discriminate].
    destruct (transform_data raw) as [transformed|e]; [|discriminate].
    exists transformed.
    destruct (load_replace_cases reachable accepts scope
                (map TransactionRow transformed) "transactions" url 10000)
      as [Hok1|[e He]]; [lia| |].
    - rewrite !Hok1 in *.
      destruct (load_replace_cases reachable accepts scope
                  (map SummaryRecord (create_summary transformed))
                  "transaction_summary" url 10000)
        as [Hok2|[e He]]; [lia| |].
      + rewrite !Hok2 in *. injection Hret as <- <-. split; reflexivity.
      + exfalso. specialize (He (<["transactions"
                                     := map TransactionRow transformed]> db)).
        destruct (load_to_database _ _ _ (map SummaryRecord _) _ _ _ _ _)
          as [[[]|e0] db2]; simpl in He; [discriminate He | discriminate].
    - exfalso. specialize (He db).
      destruct (load_to_database _ _ _ (map TransactionRow _) _ _ _ _ _)
        as [[[]|e0] db1]; simpl in He; [discriminate He | discriminate]. }
  split.
  - intros db0. destruct (Hany db0) as (transformed & -> & Hrun0).
    eexists. split; [exact Hrun0|].
    rewrite !lookup_insert_eq.
    rewrite !(lookup_insert_ne _ "transaction_summary" "transactions")
      by discriminate.
    rewrite !lookup_insert_eq. split; reflexivity.
  - destruct (Hany db') as (transformed & Hdb' & Hrun').
    rewrite Hrun'. f_equal. rewrite Hdb'.
    apply map_eq. intros k. rewrite !lookup_insert.
    repeat case_decide; reflexivity.
Qed.

End WithLibraries.
End PipelineFacts.

(** ** The schema and the setup *)

Module TablesFacts.
Import Loader Tables.

Section WithDatabase.
Context {R : Type}.
Variable reachable : string -> bool.
Variable accepts : string -> list R -> list R -> bool.
Variable scope : tx_scope.

(** After [create_all] the declared tables exist with the rows they had, and
    the other tables are as they were. *)
Lemma create_all_lookup (db : gmap string (list R)) (name : string) :
  create_all db !! name
  = if bool_decide (In name table_names)
    then Some (default [] (db !! name))
    else db !! name.
Proof.
  unfold create_all, table_names. simpl.
  destruct (decide (name = "transactions")) as [->|Hn1];
    [|destruct (decide (name = "transaction_summary")) as [->|Hn2]].
  - rewrite bool_decide_eq_true_2 by (left; reflexivity).
    destruct (db !! "transactions") as [rows|] eqn:Ht; simpl.
    + destruct (db !! "transaction_summary"); simpl;
        rewrite ?lookup_insert_ne by discriminate; exact Ht.
    + rewrite (lookup_insert_ne _ "transactions" "transaction_summary")
        by discriminate.
      destruct (db !! "transaction_summary"); simpl;
        rewrite ?lookup_insert_ne by discriminate; apply lookup_insert_eq.
  - rewrite bool_decide_eq_true_2 by (right; left; reflexivity).
    destruct (db !! "transactions") as [rows|] eqn:Ht; simpl;
      rewrite ?lookup_insert_ne by discriminate;
      destruct (db !! "transaction_summary") as [rows'|] eqn:Hs; simpl;
      rewrite ?lookup_insert_eq, ?lookup_insert_ne by discriminate;
      try reflexivity; exact Hs.
  - rewrite bool_decide_eq_false_2
      by (intros [Heq|[Heq|[]]]; congruence).
    destruct (db !! "transactions") as [rows|] eqn:Ht; simpl;
      rewrite ?lookup_insert_ne by discriminate;
      destruct (db !! "transaction_summary") as [rows'|] eqn:Hs; simpl;
      rewrite ?lookup_insert_ne by congruence; reflexivity.
Qed.

Lemma drop_all_lookup (db : gmap string (list R)) (name : string) :
  drop_all db !! name
  = if bool_decide (In name table_names) then None else db !! name.
Proof.
  unfold drop_all, table_names. simpl.
  destruct (decide (name = "transactions")) as [->|Hn1];
    [|destruct (decide (name = "transaction_summary")) as [->|Hn2]].
  - rewrite bool_decide_eq_true_2 by (left; reflexivity).
    rewrite lookup_delete_ne by discriminate. apply lookup_delete_eq.
  - rewrite bool_decide_eq_true_2 by (right; left; reflexivity).
    apply lookup_delete_eq.
  - rewrite bool_decide_eq_false_2
      by (intros [Heq|[Heq|[]]]; congruence).
    rewrite !lookup_delete_ne by congruence. reflexivity.
Qed.

(** X14: [create_tables] on a reachable database makes both declared tables
    exist, keeps the rows of a table that was already there, changes no other
    table, and changes nothing when it is called again. *)
Theorem create_tables_keeps_rows (url : string) (db : gmap string (list R)) :
  reachable url = true ->
  (forall name,
      snd (create_tables reachable url db) !! name
      = if bool_decide (In name table_names)
        then Some (default [] (db !! name))
        else db !! name)
  /\ create_tables reachable url (snd (create_tables reachable url db))
     = (Ok tt, snd (create_tables reachable url db)).
Proof.
  intros Hup. unfold create_tables. rewrite Hup. cbn [fst snd].
  split; [apply create_all_lookup|]. f_equal.
  apply map_eq. intros name. rewrite !create_all_lookup.
  destruct (decide (In name table_names)) as [Hin|Hout].
  - rewrite !bool_decide_eq_true_2 by exact Hin. reflexivity.
  - rewrite !bool_decide_eq_false_2 by exact Hout. reflexivity.
Qed.

(** X15: [drop_tables] followed by [create_tables] leaves both declared
    tables empty, whatever they held, and the other tables as they were. *)
Theorem drop_then_create_resets (url : string) (db : gmap string (list R)) :
  reachable url = true ->
  forall name,
    snd (create_tables reachable url (snd (drop_tables reachable url db)))
      !! name
    = if bool_decide (In name table_names) then Some [] else db !! name.
Proof.
  intros Hup name. unfold create_tables, drop_tables. rewrite Hup.
  cbn [fst snd]. rewrite create_all_lookup, drop_all_lookup.
  destruct (decide (In name table_names)) as [Hin|Hout].
  - rewrite !bool_decide_eq_true_2 by exact Hin. reflexivity.
  - rewrite !bool_decide_eq_false_2 by exact Hout. reflexivity.
Qed.

(** X16: once [create_tables] has run, a load under the fail-if-exists
    policy into a declared table is always refused with the already-exists
    error and changes nothing, while a load under the default append policy
    that succeeds leaves the rows the table had followed by the new ones. *)
Theorem load_after_create_tables (url name : string) (df : list R)
    (batch_size : Z) (db : gmap string (list R)) :
  reachable url = true -> In name table_names -> 0 < batch_size ->
  load_to_database reachable accepts scope df name url fail batch_size
    (snd (create_tables reachable url db))
  = (Raise (ValueError (TableExists name)),
     snd (create_tables reachable url db))
  /\ (fst (load_to_database reachable accepts scope df name url append
             batch_size (snd (create_tables reachable url db))) = Ok tt ->
      snd (load_to_database reachable accepts scope df name url append
             batch_size (snd (create_tables reachable url db))) !! name
      = Some (default [] (db !! name) ++ df)).
Proof.
  intros Hup Hname Hbs. unfold create_tables. rewrite Hup. simpl.
  assert (Hlookup : create_all db !! name = Some (default [] (db !! name))).
  { rewrite create_all_lookup, bool_decide_eq_true_2 by exact Hname.
    reflexivity. }
  unfold load_to_database, to_sql, create_table. rewrite Hup, Hlookup.
  split; [reflexivity|]. rewrite Hlookup. simpl.
  pose proof (LoaderFacts.insert_complete accepts name df
                (default [] (db !! name)) batch_size Hbs) as Hall.
  destruct (insert accepts name df batch_size (default [] (db !! name)))
    as [[[]|e] table]; simpl in *; [|discriminate].
  intros _. rewrite lookup_insert_eq, Hall by reflexivity. reflexivity.
Qed.

End WithDatabase.
End TablesFacts.

Module SetupFacts.
Import Generator Datasets Tables Setup.

Section WithLibraries.
Context {G : Type} `{PyRandom G} `{Numeric} `{FileSystem}.
Context {R : Type}.
Variable reachable : string -> bool.

(** X17: on a file system that takes every path, [setup_environment]
    returns whether the database at the default URL is reachable. When it is
    not, no table is created, no file is written and no random number is
    drawn; when it is, the declared tables are created beside what the
    database held and the nine dataset files are written under [data/raw],
    each with as many rows as its size asks for. *)
Theorem setup_environment_result
    (files : gmap string (file_format * DataFrame)) (g : G)
    (db : gmap string (list R)) :
  (forall p, mkdir_parents p = true) -> (forall p, can_write p = true) ->
  exists files' g',
    setup_environment reachable files g db
    = (reachable default_database_url,
       if reachable default_database_url then create_all db else db,
       Some (files', g'))
    /\ if reachable default_database_url
       then forall size n fmt ext,
           In (size, n) datasets ->
           In (fmt, ext)
              [(csv, ".csv"); (json, ".json"); (parquet, ".parquet")]%string ->
           exists df,
             files' !! path_join "data/raw" ("transactions_" +:+ size +:+ ext)
             = Some (fmt, df)
             /\ Z.of_nat (length df) = n
       else files' = files /\ g' = g.
Proof.
  intros Hdir Hfile. unfold setup_environment, create_tables.
  destruct (reachable default_database_url) eqn:Hup.
  - destruct (DatasetsFacts.create_test_datasets_ok "data/raw" files g
                Hdir Hfile) as (files' & g' & -> & Hnine & _).
    exists files', g'. split; [reflexivity|].
    intros size n fmt ext Hsize Hfmt.
    destruct (Hnine size n fmt ext Hsize Hfmt) as (df & Hdf & Hlen & _).
    exists df. split; assumption.
  - exists files, g. split; [reflexivity|]. split; reflexivity.
Qed.

End WithLibraries.
End SetupFacts.

(** ** The theorems at concrete inputs *)

Module Witnesses.
Import Generator Etl Loader Fixtures.

(** Ten rows drawn from the sample generator seeded with 42 carry the
    computed amounts. *)
Lemma generated_total_amount_witness :
  exists df files g',
    generate_sample_data 10 csv None (∅ : gmap string (file_format * DataFrame))
      (42 : Z) = Ok (df, files, g')
    /\ List.Forall
         (fun r =>
            total_amount r
            = np_round 2
                (Int64.to_float (quantity r) * unit_price r
                 * (1 - Int64.to_float (discount_percent r) / 100)
                 * (1 + tax_rate r))%float)
         df.
Proof.
  destruct (generate_sample_data 10 csv None
              (∅ : gmap string (file_format * DataFrame)) (42 : Z))
    as [[[df files] g']|e] eqn:Hrun.
  - exists df, files, g'. split; [reflexivity|].
    exact (GeneratorFacts.generated_total_amount _ _ _ _ _ _ _ _ Hrun).
  - exfalso. vm_compute in Hrun. discriminate Hrun.
Defined.

(** No validation at zero rows: the empty dataset comes back. *)
Lemma generate_zero_rows_returns :
  generate_sample_data 0 csv None (∅ : gmap string (file_format * DataFrame))
    (42 : Z) = Ok ([], ∅, 42)
  /\ ~ raises (generate_sample_data 0 csv None
                 (∅ : gmap string (file_format * DataFrame)) (42 : Z)).
Proof.
  split; [reflexivity|]. intros [e He]. vm_compute in He. discriminate He.
Qed.

Lemma generate_nonpositive_is_empty_witness :
  -3 <= 0
  /\ generate_sample_data (-3) json None
       (∅ : gmap string (file_format * DataFrame)) (42 : Z)
     = Ok ([], ∅, 42)
  /\ ((exists files',
         generate_sample_data (-3) json (Some "out.json")
           (∅ : gmap string (file_format * DataFrame)) (42 : Z)
         = Ok ([], files', 42))
      \/ generate_sample_data (-3) json (Some "out.json")
           (∅ : gmap string (file_format * DataFrame)) (42 : Z)
         = Raise OSError).
Proof.
  assert (Hn : -3 <= 0) by lia.
  split; [exact Hn|].
  exact (GeneratorFacts.generate_nonpositive_is_empty (-3) json
           (Some "out.json") ∅ 42 Hn).
Defined.

Lemma generate_below_ten_raises_witness :
  1 <= 5 <= 9
  /\ 5 / 10 = 0
  /\ generate_sample_data 5 parquet None
       (∅ : gmap string (file_format * DataFrame)) (42 : Z)
     = Raise (ValueError (EmptyRange 1 (5 / 10 + 1))).
Proof.
  assert (Hn : 1 <= 5 <= 9) by lia.
  split; [exact Hn|].
  exact (GeneratorFacts.generate_below_ten_raises 5 parquet None ∅ 42 Hn).
Defined.

Lemma transform_data_output_valid_witness :
  exists out,
    transform_data dirty_frame = Ok out
    /\ length out = 2%nat
    /\ List.Forall
         (fun r => (total_amount r <=? 0)%float = false
                   /\ (quantity r <=? 0) = false) out
    /\ List.NoDup (map transaction_id out)
    /\ (length out <= length dirty_frame)%nat.
Proof.
  destruct (transform_data dirty_frame) as [out|e] eqn:Hrun.
  - exists out. split; [reflexivity|]. split.
    + vm_compute in Hrun. injection Hrun as <-. reflexivity.
    + exact (EtlFacts.transform_data_output_valid dirty_frame out Hrun).
  - exfalso. vm_compute in Hrun. discriminate Hrun.
Defined.

Lemma transform_data_segments_witness :
  exists out,
    transform_data boundary_frame = Ok out
    /\ List.Forall
         (fun r =>
            exists d,
              derived r = Some d
              /\ (0 <? total_amount r)%float = true
              /\ customer_segment d
                 = Some (if (total_amount r <=? 50)%float then low_value
                         else if (total_amount r <=? 200)%float
                              then medium_value else high_value)
              /\ (total_amount r = 50.00%float
                  -> customer_segment d = Some low_value)
              /\ (total_amount r = 50.01%float
                  -> customer_segment d = Some medium_value)
              /\ (total_amount r = 200.00%float
                  -> customer_segment d = Some medium_value)
              /\ (total_amount r = 200.01%float
                  -> customer_segment d = Some high_value))
         out.
Proof.
  destruct (transform_data boundary_frame) as [out|e] eqn:Hrun.
  - exists out. split; [reflexivity|].
    exact (EtlFacts.transform_data_segments boundary_frame out Hrun).
  - exfalso. vm_compute in Hrun. discriminate Hrun.
Defined.

Lemma transform_data_idempotent_witness :
  exists out,
    transform_data boundary_frame = Ok out
    /\ transform_data out = Ok out
    /\ length out = length boundary_frame.
Proof.
  assert (Hnd : List.NoDup (map transaction_id boundary_frame)).
  { repeat constructor; simpl; intuition discriminate. }
  assert (Hok : List.Forall
                  (fun r => notna r = true /\ positive_amount r = true
                            /\ positive_quantity r = true) boundary_frame).
  { repeat constructor. }
  destruct (transform_data boundary_frame) as [out|e] eqn:Hrun.
  - exists out. split; [reflexivity|].
    exact (EtlFacts.transform_data_idempotent boundary_frame out Hnd Hok Hrun).
  - exfalso. vm_compute in Hrun. discriminate Hrun.
Defined.


(** Under fail-if-exists, a table that exists and holds no row already makes
    the load fail. *)
Lemma load_fail_on_empty_table :
  ({[ "transactions" := [] ]} : gmap string (list Z)) !! "transactions"
  = Some []
  /\ load_to_database always_up refuse_negative WholeCall [1; 2]
       "transactions" "postgresql://localhost:5432/orchestrator_test"
       fail 10000 {[ "transactions" := [] ]}
     = (Raise (ValueError (TableExists "transactions")),
        {[ "transactions" := [] ]}).
Proof. split; reflexivity. Qed.

(** Under fail-if-exists, loading into a table that holds two rows: the
    load is refused and the two rows are still there. *)
Lemma load_fail_iff_table_exists_witness :
  always_up "db" = true
  /\ ({[ "transactions" := [7; 8] ]} : gmap string (list Z)) !! "transactions"
     = Some [7; 8]
  /\ load_to_database always_up refuse_negative PerChunk [1; 2]
       "transactions" "db" fail 1 {[ "transactions" := [7; 8] ]}
     = (Raise (ValueError (TableExists "transactions")),
        {[ "transactions" := [7; 8] ]})
  /\ (fst (load_to_database always_up refuse_negative PerChunk [1; 2]
            "transactions" "db" fail 1 {[ "transactions" := [7; 8] ]})
      = Raise (ValueError (TableExists "transactions"))
      <-> exists rows,
          ({[ "transactions" := [7; 8] ]} : gmap string (list Z))
            !! "transactions"
          = Some rows)
  /\ (forall rows,
         ({[ "transactions" := [7; 8] ]} : gmap string (list Z))
           !! "transactions"
         = Some rows ->
         load_to_database always_up refuse_negative PerChunk [1; 2]
           "transactions" "db" fail 1 {[ "transactions" := [7; 8] ]}
         = (Raise (ValueError (TableExists "transactions")),
            {[ "transactions" := [7; 8] ]})).
Proof.
  assert (Hup : always_up "db" = true) by reflexivity.
  assert (Hrows :
    ({[ "transactions" := [7; 8] ]} : gmap string (list Z)) !! "transactions"
    = Some [7; 8]) by reflexivity.
  split; [exact Hup|]. split; [exact Hrows|].
  split;
    [exact (proj2 (LoaderFacts.load_fail_iff_table_exists always_up
                     refuse_negative PerChunk [1; 2] "transactions" "db" 1
                     {[ "transactions" := [7; 8] ]} Hup) [7; 8] Hrows)|].
  exact (LoaderFacts.load_fail_iff_table_exists always_up refuse_negative
           PerChunk [1; 2] "transactions" "db" 1
           {[ "transactions" := [7; 8] ]} Hup).
Defined.

(** Under replace, a batch refused mid-load: the run fails, the old rows
    are gone, and the table holds the first batch of the new rows when each
    batch is committed on its own, or nothing when the inserts are undone.
    The table is neither as it was nor fully replaced. *)
Lemma load_replace_not_atomic :
  ({[ "transactions" := [7; 8] ]} : gmap string (list Z)) !! "transactions"
  = Some [7; 8]
  /\ load_to_database always_up refuse_negative PerChunk [1; 2; -3; 4]
       "transactions" "db" replace 2 {[ "transactions" := [7; 8] ]}
     = (Raise DBAPIError, {[ "transactions" := [1; 2] ]})
  /\ load_to_database always_up refuse_negative InsertOnly [1; 2; -3; 4]
       "transactions" "db" replace 2 {[ "transactions" := [7; 8] ]}
     = (Raise DBAPIError, {[ "transactions" := [] ]}).
Proof. repeat split; reflexivity. Qed.

(** The second batch of two is refused: under a per-batch commit the table
    is left with the first batch of the new rows and none of the old. *)
Lemma load_replace_never_mixes_witness :
  load_to_database always_up refuse_negative PerChunk [1; 2; -3; 4]
    "transactions" "db" replace 2 {[ "transactions" := [7; 8] ]}
  = (Raise DBAPIError, {[ "transactions" := [1; 2] ]})
  /\ (snd (load_to_database always_up refuse_negative PerChunk [1; 2; -3; 4]
             "transactions" "db" replace 2 {[ "transactions" := [7; 8] ]})
        !! "transactions"
      = ({[ "transactions" := [7; 8] ]} : gmap string (list Z)) !! "transactions"
      \/ exists k,
          (k < length ([1; 2; -3; 4]%Z : list Z))%nat
          /\ snd (load_to_database always_up refuse_negative PerChunk
                    [1; 2; -3; 4] "transactions" "db" replace 2
                    {[ "transactions" := [7; 8] ]}) !! "transactions"
             = Some (firstn k [1; 2; -3; 4]))
  /\ forall other, other <> "transactions" ->
       snd (load_to_database always_up refuse_negative PerChunk [1; 2; -3; 4]
              "transactions" "db" replace 2 {[ "transactions" := [7; 8] ]})
         !! other
       = ({[ "transactions" := [7; 8] ]} : gmap string (list Z)) !! other.
Proof.
  assert (Hfail :
    fst (load_to_database always_up refuse_negative PerChunk [1; 2; -3; 4]
           "transactions" "db" replace 2 {[ "transactions" := [7; 8] ]})
    = Raise DBAPIError) by reflexivity.
  split; [reflexivity|].
  exact (LoaderFacts.load_replace_never_mixes always_up refuse_negative
           PerChunk [1; 2; -3; 4] "transactions" "db" 2
           {[ "transactions" := [7; 8] ]} DBAPIError Hfail).
Defined.

(** Loading [[1; 2]] and then [[3; 4; 5]] with [append], in batches of two. *)
Lemma load_success_table_witness :
  0 < 2
  /\ fst (load_to_database always_up refuse_negative PerChunk [3; 4; 5]
            "transactions" "db" append 2 {[ "transactions" := [1; 2] ]})
     = Ok tt
  /\ snd (load_to_database always_up refuse_negative PerChunk [3; 4; 5]
            "transactions" "db" append 2 {[ "transactions" := [1; 2] ]})
       !! "transactions"
     = Some (default []
               (({[ "transactions" := [1; 2] ]} : gmap string (list Z))
                  !! "transactions") ++ [3; 4; 5]).
Proof.
  assert (Hbs : 0 < 2) by lia.
  assert (Hok :
    fst (load_to_database always_up refuse_negative PerChunk [3; 4; 5]
           "transactions" "db" append 2 {[ "transactions" := [1; 2] ]})
    = Ok tt) by reflexivity.
  split; [exact Hbs|]. split; [exact Hok|].
  exact (LoaderFacts.load_success_table always_up refuse_negative PerChunk
           [3; 4; 5] "transactions" "db" append 2
           {[ "transactions" := [1; 2] ]} Hbs Hok).
Defined.

End Witnesses.

(** ** The further theorems at concrete inputs *)

Module MoreWitnesses.
Import Generator Etl Loader Fixtures PipelineFixtures.

(** Ten rows drawn from the sample generator seeded with 42. *)
Lemma generated_rows_in_range_witness :
  exists df files g',
    generate_sample_data 10 csv None (∅ : gmap string (file_format * DataFrame))
      (42 : Z) = Ok (df, files, g')
    /\ List.Forall
         (fun r =>
            1 <= quantity r <= 10
            /\ In (discount_percent r) discounts
            /\ (exists c, category r = Some c /\ In c Generator.categories)
            /\ In (status r) statuses
            /\ In (payment_method r) payment_methods
            /\ In (shipping_country r) shipping_countries
            /\ tax_rate r = 0.08%float
            /\ (exists k, 1 <= k <= 1000
                          /\ product_name r = "Product_" +:+ str_int k)
            /\ (exists k, 0 <= k <= 700
                          /\ transaction_date r
                             = DateStr (strftime (add_days start_date k)))
            /\ (exists k, 1 <= k <= 10 / 10
                          /\ customer_id r = Some ("CUST" +:+ format_0d 6 k))
            /\ (exists k, 1 <= k <= 10 / 10
                          /\ customer_email r
                             = "customer" +:+ str_int k +:+ "@example.com")
            /\ derived r = None)
         df.
Proof.
  destruct (generate_sample_data 10 csv None
              (∅ : gmap string (file_format * DataFrame)) (42 : Z))
    as [[[df files] g']|e] eqn:Hrun.
  - exists df, files, g'. split; [reflexivity|].
    exact (GeneratorRanges.generated_rows_in_range _ _ _ _ _ _ _ _ Hrun).
  - exfalso. vm_compute in Hrun. discriminate Hrun.
Defined.

(** The datasets written below [data/raw] on the file system that takes
    every path. *)
Lemma create_test_datasets_files_witness :
  (forall p, mkdir_parents p = true)
  /\ (forall p, can_write p = true)
  /\ exists files' g',
       Datasets.create_test_datasets "data/raw"
         (∅ : gmap string (file_format * DataFrame)) (42 : Z)
       = Ok (files', g')
       /\ (forall size n fmt ext,
              In (size, n) Datasets.datasets ->
              In (fmt, ext)
                 [(csv, ".csv"); (json, ".json"); (parquet, ".parquet")]%string ->
              exists df,
                files' !! Datasets.path_join "data/raw"
                            ("transactions_" +:+ size +:+ ext)
                = Some (fmt, df)
                /\ Z.of_nat (length df) = n
                /\ List.NoDup (map transaction_id df))
       /\ (forall p,
              (forall size ext,
                  In size (map fst Datasets.datasets) ->
                  In ext [".csv"; ".json"; ".parquet"]%string ->
                  p <> Datasets.path_join "data/raw"
                         ("transactions_" +:+ size +:+ ext)) ->
              files' !! p
              = (∅ : gmap string (file_format * DataFrame)) !! p).
Proof.
  assert (Hdir : forall p, mkdir_parents p = true) by (intros p; reflexivity).
  assert (Hfile : forall p, can_write p = true) by (intros p; reflexivity).
  split; [exact Hdir|]. split; [exact Hfile|].
  exact (DatasetsFacts.create_test_datasets_files "data/raw" ∅ 42 Hdir Hfile).
Defined.

(** The frame with a repeated key, a zero quantity and a negative amount. *)
Lemma transform_data_survivors_witness :
  exists out,
    transform_data dirty_frame = Ok out
    /\ (forall k,
           In k (map transaction_id out)
           <-> exists i r,
                 nth_error dirty_frame i = Some r
                 /\ transaction_id r = k
                 /\ notna r = true /\ positive_amount r = true
                 /\ positive_quantity r = true
                 /\ forall j r', (j < i)%nat ->
                                 nth_error dirty_frame j = Some r' ->
                                 transaction_id r' <> k)
    /\ sublist (map transaction_id out) (map transaction_id dirty_frame).
Proof.
  destruct (transform_data dirty_frame) as [out|e] eqn:Hrun.
  - exists out. split; [reflexivity|].
    exact (TransformerMore.transform_data_survivors dirty_frame out Hrun).
  - exfalso. vm_compute in Hrun. discriminate Hrun.
Defined.


(** Ten generated rows, transformed and summarised. *)
Lemma generated_summary_categories_witness :
  exists raw files g' df,
    generate_sample_data 10 csv None (∅ : gmap string (file_format * DataFrame))
      (42 : Z) = Ok (raw, files, g')
    /\ transform_data raw = Ok df
    /\ (length (create_summary df) <= 6)%nat
    /\ List.Forall (fun s => In (s_category s) Generator.categories)
         (create_summary df).
Proof.
  destruct (generate_sample_data 10 csv None
              (∅ : gmap string (file_format * DataFrame)) (42 : Z))
    as [[[raw files] g']|e] eqn:Hgen;
    [|exfalso; vm_compute in Hgen; discriminate Hgen].
  destruct (transform_data raw) as [df|e] eqn:Hrun.
  - exists raw, files, g', df. split; [reflexivity|]. split; [exact Hrun|].
    exact (AggregatorMore.generated_summary_categories _ _ _ _ _ _ _ _ _
             Hgen Hrun).
  - exfalso. vm_compute in Hgen. injection Hgen as Hraw _ _. subst raw.
    vm_compute in Hrun. discriminate Hrun.
Defined.

(** The pipeline on the sample sales, into an empty database that takes
    every batch. *)
Lemma run_etl_pipeline_success_witness :
  exists m db',
    Pipeline.run_etl_pipeline always_up accept_rows WholeCall
      "data/raw/transactions_small.csv" "db" csv sales_files ∅
    = (Pipeline.Returned m, db')
    /\ exists raw transformed,
         Pipeline.extract_data "data/raw/transactions_small.csv" csv sales_files
         = Pipeline.Returned raw
         /\ transform_data raw = Ok transformed
         /\ db' = <["transaction_summary"
                      := map Pipeline.SummaryRecord (create_summary transformed)]>
                    (<["transactions"
                         := map Pipeline.TransactionRow transformed]> ∅)
         /\ Pipeline.rows_processed m = Z.of_nat (length transformed)
         /\ Pipeline.categories m
            = Z.of_nat (length (create_summary transformed))
         /\ Pipeline.categories m <= Pipeline.rows_processed m
            <= Z.of_nat (length raw).
Proof.
  destruct (Pipeline.run_etl_pipeline always_up accept_rows WholeCall
              "data/raw/transactions_small.csv" "db" csv sales_files ∅)
    as [[m|e] db'] eqn:Hrun.
  - exists m, db'. split; [reflexivity|].
    exact (PipelineFacts.run_etl_pipeline_success always_up accept_rows
             WholeCall _ _ _ _ _ _ _ Hrun).
  - exfalso. vm_compute in Hrun. discriminate Hrun.
Defined.

(** The pipeline on the sample sales when the database refuses what is
    written to the summary table: the second load fails. *)
Lemma run_etl_pipeline_failure_witness :
  exists e db',
    Pipeline.run_etl_pipeline always_up refuse_summary InsertOnly
      "data/raw/transactions_small.csv" "db" csv sales_files
      {[ "audit" := [] ]}
    = (Pipeline.Failed e, db')
    /\ (forall other, other <> "transactions"%string ->
                      other <> "transaction_summary"%string ->
                      db' !! other
                      = ({[ "audit" := [] ]}
                           : gmap string (list Pipeline.table_row)) !! other)
    /\ (db' !! "transaction_summary"
        = ({[ "audit" := [] ]}
             : gmap string (list Pipeline.table_row)) !! "transaction_summary"
        \/ exists raw transformed,
             Pipeline.extract_data "data/raw/transactions_small.csv" csv
               sales_files
             = Pipeline.Returned raw
             /\ transform_data raw = Ok transformed
             /\ db' !! "transactions"
                = Some (map Pipeline.TransactionRow transformed)).
Proof.
  destruct (Pipeline.run_etl_pipeline always_up refuse_summary InsertOnly
              "data/raw/transactions_small.csv" "db" csv sales_files
              {[ "audit" := [] ]})
    as [[m|e] db'] eqn:Hrun.
  - exfalso. vm_compute in Hrun. discriminate Hrun.
  - exists e, db'. split; [reflexivity|].
    exact (PipelineFacts.run_etl_pipeline_failure always_up refuse_summary
             InsertOnly _ _ _ _ _ _ _ Hrun).
Defined.

(** The pipeline on the sample sales, run again on any database. *)
Lemma run_etl_pipeline_rerun_witness :
  exists m db',
    Pipeline.run_etl_pipeline always_up accept_rows PerChunk
      "data/raw/transactions_small.csv" "db" csv sales_files ∅
    = (Pipeline.Returned m, db')
    /\ (forall db0,
           exists db0',
             Pipeline.run_etl_pipeline always_up accept_rows PerChunk
               "data/raw/transactions_small.csv" "db" csv sales_files db0
             = (Pipeline.Returned m, db0')
             /\ db0' !! "transactions" = db' !! "transactions"
             /\ db0' !! "transaction_summary" = db' !! "transaction_summary")
    /\ Pipeline.run_etl_pipeline always_up accept_rows PerChunk
         "data/raw/transactions_small.csv" "db" csv sales_files db'
       = (Pipeline.Returned m, db').
Proof.
  destruct (Pipeline.run_etl_pipeline always_up accept_rows PerChunk
              "data/raw/transactions_small.csv" "db" csv sales_files ∅)
    as [[m|e] db'] eqn:Hrun.
  - exists m, db'. split; [reflexivity|].
    exact (PipelineFacts.run_etl_pipeline_rerun always_up accept_rows
             PerChunk _ _ _ _ _ _ _ Hrun).
  - exfalso. vm_compute in Hrun. discriminate Hrun.
Defined.

(** Creating the tables of a database that holds two transactions. *)
Lemma create_tables_keeps_rows_witness :
  always_up "db" = true
  /\ (forall name,
         snd (Tables.create_tables always_up "db"
                ({[ "transactions" := [7; 8] ]} : gmap string (list Z)))
           !! name
         = if bool_decide (In name Tables.table_names)
           then Some (default []
                        (({[ "transactions" := [7; 8] ]}
                            : gmap string (list Z)) !! name))
           else ({[ "transactions" := [7; 8] ]} : gmap string (list Z))
                  !! name)
  /\ Tables.create_tables always_up "db"
       (snd (Tables.create_tables always_up "db"
               ({[ "transactions" := [7; 8] ]} : gmap string (list Z))))
     = (Ok tt,
        snd (Tables.create_tables always_up "db"
               ({[ "transactions" := [7; 8] ]} : gmap string (list Z)))).
Proof.
  assert (Hup : always_up "db" = true) by reflexivity.
  split; [exact Hup|].
  exact (TablesFacts.create_tables_keeps_rows always_up "db"
           {[ "transactions" := [7; 8] ]} Hup).
Defined.

(** Dropping and creating again the tables of that database. *)
Lemma drop_then_create_resets_witness :
  always_up "db" = true
  /\ forall name,
       snd (Tables.create_tables always_up "db"
              (snd (Tables.drop_tables always_up "db"
                      ({[ "transactions" := [7; 8] ]}
                         : gmap string (list Z)))))
         !! name
       = if bool_decide (In name Tables.table_names) then Some []
         else ({[ "transactions" := [7; 8] ]} : gmap string (list Z)) !! name.
Proof.
  assert (Hup : always_up "db" = true) by reflexivity.
  split; [exact Hup|].
  exact (TablesFacts.drop_then_create_resets always_up "db"
           {[ "transactions" := [7; 8] ]} Hup).
Defined.

(** Loading [[3; 4; 5]] into [transactions] after the tables were created.  *)
Lemma load_after_create_tables_witness :
  always_up "db" = true
  /\ In "transactions"%string Tables.table_names
  /\ 0 < 2
  /\ load_to_database always_up refuse_negative PerChunk [3; 4; 5]
       "transactions" "db" fail 2
       (snd (Tables.create_tables always_up "db"
               ({[ "transactions" := [1; 2] ]} : gmap string (list Z))))
     = (Raise (ValueError (TableExists "transactions")),
        snd (Tables.create_tables always_up "db"
               ({[ "transactions" := [1; 2] ]} : gmap string (list Z))))
  /\ (fst (load_to_database always_up refuse_negative PerChunk [3; 4; 5]
             "transactions" "db" append 2
             (snd (Tables.create_tables always_up "db"
                     ({[ "transactions" := [1; 2] ]} : gmap string (list Z)))))
      = Ok tt ->
      snd (load_to_database always_up refuse_negative PerChunk [3; 4; 5]
             "transactions" "db" append 2
             (snd (Tables.create_tables always_up "db"
                     ({[ "transactions" := [1; 2] ]} : gmap string (list Z)))))
        !! "transactions"
      = Some (default []
                (({[ "transactions" := [1; 2] ]} : gmap string (list Z))
                   !! "transactions") ++ [3; 4; 5])).
Proof.
  assert (Hup : always_up "db" = true) by reflexivity.
  assert (Hname : In "transactions"%string Tables.table_names)
    by (left; reflexivity).
  assert (Hbs : 0 < 2) by lia.
  split; [exact Hup|]. split; [exact Hname|]. split; [exact Hbs|].
  exact (TablesFacts.load_after_create_tables always_up refuse_negative
           PerChunk "db" "transactions" [3; 4; 5] 2
           {[ "transactions" := [1; 2] ]} Hup Hname Hbs).
Defined.

(** Setting up against a reachable database that holds nothing. *)
Lemma setup_environment_result_witness :
  (forall p, mkdir_parents p = true)
  /\ (forall p, can_write p = true)
  /\ exists files' g',
       Setup.setup_environment always_up
         (∅ : gmap string (file_format * DataFrame)) (42 : Z)
         (∅ : gmap string (list Z))
       = (always_up Tables.default_database_url,
          if always_up Tables.default_database_url
          then Tables.create_all (∅ : gmap string (list Z))
          else ∅,
          Some (files', g'))
       /\ if always_up Tables.default_database_url
          then forall size n fmt ext,
              In (size, n) Datasets.datasets ->
              In (fmt, ext)
                 [(csv, ".csv"); (json, ".json"); (parquet, ".parquet")]%string ->
              exists df,
                files' !! Datasets.path_join "data/raw"
                            ("transactions_" +:+ size +:+ ext)
                = Some (fmt, df)
                /\ Z.of_nat (length df) = n
          else files' = ∅ /\ g' = 42.
Proof.
  assert (Hdir : forall p, mkdir_parents p = true) by (intros p; reflexivity).
  assert (Hfile : forall p, can_write p = true) by (intros p; reflexivity).
  split; [exact Hdir|]. split; [exact Hfile|].
  exact (SetupFacts.setup_environment_result always_up ∅ 42 ∅ Hdir Hfile).
Defined.

End MoreWitnesses.

(** ** Runs of the model *)

Module Examples.
Import Generator Etl Loader Fixtures PipelineFixtures.

Example start_date_is_sunday : day_name start_date = "Sunday".
Proof. reflexivity. Qed.

Example last_day_of_window :
  strftime (add_days start_date 700) = "2024-12-01 00:00:00".
Proof. reflexivity. Qed.

Example sequential_id : "TXN" +:+ format_0d 8 123 = "TXN00000123".
Proof. reflexivity. Qed.

Example boundary_segments :
  (let* out := transform_data boundary_frame in
   Ok (map (fun r => (transaction_id r,
                      option_map customer_segment (derived r))) out))
  = Ok [ (Some "TXN00000000", Some (Some low_value));
         (Some "TXN00000001", Some (Some medium_value));
         (Some "TXN00000002", Some (Some medium_value));
         (Some "TXN00000003", Some (Some high_value)) ].
Proof. reflexivity. Qed.

Example dirty_rows_dropped :
  (let* out := transform_data dirty_frame in Ok (map transaction_id out))
  = Ok [Some "TXN00000000"; Some "TXN00000003"].
Proof. reflexivity. Qed.

(** The summary of the sample sales: Books 1 / 20.00 / 20.00 and
    Electronics 2 / 400.00 / 200.00, and no other row. *)
Example sales_summary :
  (let* df := transform_data sales_frame in Ok (create_summary df))
  = Ok [ {| s_category := "Books"; total_transactions := 1;
            total_revenue := 20; avg_order_value := 20;
            total_quantity := 2 |};
         {| s_category := "Electronics"; total_transactions := 2;
            total_revenue := 400; avg_order_value := 200;
            total_quantity := 4 |} ]%float.
Proof. reflexivity. Qed.

(** Under [append] the same refused batch leaves old and new rows together. *)
Example append_mixes_on_failure :
  load_to_database always_up refuse_negative PerChunk [1; 2; -3; 4]
    "transactions" "db" append 2 {[ "transactions" := [7; 8] ]}
  = (Raise DBAPIError, {[ "transactions" := [7; 8; 1; 2] ]}).
Proof. reflexivity. Qed.

(** With the whole call in one transaction the refused load changes nothing. *)
Example replace_rolls_back :
  load_to_database always_up refuse_negative WholeCall [1; 2; -3; 4]
    "transactions" "db" replace 2 {[ "transactions" := [7; 8] ]}
  = (Raise DBAPIError, {[ "transactions" := [7; 8] ]}).
Proof. reflexivity. Qed.

Example replace_then_replace :
  snd (load_to_database always_up refuse_negative PerChunk [3; 4; 5]
         "transactions" "db" replace 2
         (snd (load_to_database always_up refuse_negative PerChunk [1; 2]
                 "transactions" "db" replace 2 ∅)))
  = {[ "transactions" := [3; 4; 5] ]}.
Proof. reflexivity. Qed.


(** The pipeline on the sample sales: three rows, two categories, a revenue
    of 420. *)
Example pipeline_on_sales :
  fst (Pipeline.run_etl_pipeline always_up PipelineFixtures.accept_rows
         WholeCall "data/raw/transactions_small.csv" "db" csv
         PipelineFixtures.sales_files ∅)
  = Pipeline.Returned
      {| Pipeline.rows_processed := 3; Pipeline.categories := 2;
         Pipeline.total_revenue := 420%float |}.
Proof. vm_compute. reflexivity. Qed.

(** A date that does not parse stops the pipeline before anything is
    loaded, but not when it sits on a row that cleaning drops. *)
Example pipeline_on_bad_date :
  Pipeline.run_etl_pipeline always_up PipelineFixtures.accept_rows WholeCall
    "data/raw/transactions_small.csv" "db" csv
    PipelineFixtures.bad_date_files ∅
  = (Pipeline.Failed (Pipeline.Python (ValueError (DateParse "yesterday"))),
     ∅).
Proof. vm_compute. reflexivity. Qed.

(** The file is looked for before the format is. *)
Example pipeline_on_missing_file :
  Pipeline.run_etl_pipeline always_up PipelineFixtures.accept_rows WholeCall
    "data/raw/transactions_tiny.xml" "db" (other_format "xml")
    PipelineFixtures.sales_files ∅
  = (Pipeline.Failed
       (Pipeline.FileNotFoundError "data/raw/transactions_tiny.xml"), ∅).
Proof. vm_compute. reflexivity. Qed.

End Examples.
